(** * Skill activation hooks: a shallow embedding and its properties

    The repository ships two implementations of the UserPromptSubmit hook:

    - the JavaScript hook ([loadSkillRules], [matchesFilePattern],
      [containsKeywords], [matchesIntent], [analyzePrompt], [formatMessage],
      [main]), which scores every rule, sorts the suggestions and prints a
      message;
    - the TypeScript hook [skill-activation-prompt.ts], a single [main] that
      records at most one match per rule and prints only the blocking ones.

    Both are embedded below.  Conventions of the embedding:

    - a JavaScript string is a [string] whose characters are the code units
      0 to 255 (Latin-1, ASCII included); [toLowerCase], the [i] flag, [\b],
      [.] and [trim] are modelled on the whole of that range.  The fixed
      texts of the messages hold characters beyond it, written as their
      UTF-8 bytes; they are only ever copied;
    - a call that may raise returns an [outcome]: [Return v], [Raise e], or
      [Unmodelled] when a regular expression uses syntax outside the fragment
      embedded here (nothing is claimed about such a run);
    - the rule file and the standard input are read through explicit
      descriptions of what the file system and the JSON parser deliver, with
      the rule collection typed after its documented schema. *)

From Stdlib Require Import List Ascii String Bool Arith Lia ZArith.
From Stdlib Require Import Permutation Sorted DecimalString.
Import ListNotations.

Set Implicit Arguments.

Local Open Scope char_scope.
Local Open Scope string_scope.
Local Open Scope list_scope.
Local Open Scope nat_scope.

(** ** Outcomes of calls that may raise *)

Inductive error : Type :=
| SyntaxError (source : string)   (* new RegExp on an invalid pattern *)
| JSONError                       (* JSON.parse on malformed text *)
| IOError                         (* readFileSync on a missing or unreadable file *)
| TypeError.                      (* property access on undefined *)

Inductive outcome (A : Type) : Type :=
| Return (a : A)
| Raise (e : error)
| Unmodelled.

Arguments Return {A} a.
Arguments Raise {A} e.
Arguments Unmodelled {A}.

Definition bind {A B : Type} (m : outcome A) (k : A -> outcome B) : outcome B :=
  match m with
  | Return a => k a
  | Raise e => Raise e
  | Unmodelled => Unmodelled
  end.

Notation "x <- m ;; k" := (bind m (fun x => k))
  (at level 61, m at next level, right associativity).

(** ** Characters and strings *)

Module Text.

Definition code (c : ascii) : nat := nat_of_ascii c.

Definition between (lo hi : nat) (c : ascii) : bool :=
  (lo <=? code c) && (code c <=? hi).

Definition is_upper (c : ascii) : bool := between 65 90 c.
Definition is_lower (c : ascii) : bool := between 97 122 c.

(** The other letters below 256 that have two cases: the capitals from
    U+00C0 to U+00DE and the small letters from U+00E0 to U+00FE, the signs
    U+00D7 and U+00F7 left out. *)
Definition is_upper_latin (c : ascii) : bool :=
  between 192 214 c || between 216 222 c.
Definition is_lower_latin (c : ascii) : bool :=
  between 224 246 c || between 248 254 c.
Definition is_digit (c : ascii) : bool := between 48 57 c.

(** [String.prototype.toLowerCase], one code unit at a time. *)
Definition lower_char (c : ascii) : ascii :=
  if is_upper c || is_upper_latin c then ascii_of_nat (code c + 32) else c.

(** Canonicalize of the [i] flag: the upper-case form of a code unit.  The
    sharp s (U+00DF) has no upper-case form of one code unit and stays; the
    micro sign (U+00B5) and the y with diaeresis (U+00FF) have upper-case
    forms beyond 255 that no other code unit below 256 shares, so that each
    stands for its own form here. *)
Definition canonical (c : ascii) : ascii :=
  if is_lower c || is_lower_latin c then ascii_of_nat (code c - 32) else c.

(** The word characters of [\b]: letters, digits and the underscore. *)
Definition is_word (c : ascii) : bool :=
  is_upper c || is_lower c || is_digit c || (c =? "_")%char.

(** Line terminators, which [.] refuses: LF and CR. *)
Definition is_line_terminator (c : ascii) : bool :=
  (code c =? 10) || (code c =? 13).

(** White space removed by [trim]: TAB, LF, VT, FF, CR, SPACE and the
    no-break space U+00A0. *)
Definition is_space (c : ascii) : bool :=
  between 9 13 c || (code c =? 32) || (code c =? 160).

Definition lower (s : list ascii) : list ascii := map lower_char s.

Fixpoint starts_with (p s : list ascii) : bool :=
  match p, s with
  | [], _ => true
  | _ :: _, [] => false
  | a :: p', b :: s' => (a =? b)%char && starts_with p' s'
  end.

(** [String.prototype.includes]: the needle starts at some index. *)
Fixpoint includes (s needle : list ascii) : bool :=
  starts_with needle s ||
  match s with
  | [] => false
  | _ :: s' => includes s' needle
  end.

Fixpoint drop_spaces (s : list ascii) : list ascii :=
  match s with
  | [] => []
  | c :: s' => if is_space c then drop_spaces s' else s
  end.

(** [String.prototype.trim]. *)
Definition trim (s : list ascii) : list ascii :=
  rev (drop_spaces (rev (drop_spaces s))).

(** [s.replace(/c/g, by)] for a one-character pattern. *)
Definition replace_char (c : ascii) (by_ : list ascii) (s : list ascii)
  : list ascii :=
  flat_map (fun x => if (x =? c)%char then by_ else [x]) s.

(** [s.replace(/\*\*/g, by)]: occurrences of two stars, left to right. *)
Fixpoint replace_star_star (by_ : list ascii) (s : list ascii) : list ascii :=
  match s with
  | [] => []
  | c :: r =>
      match r with
      | d :: r' =>
          if (c =? "*")%char && (d =? "*")%char
          then by_ ++ replace_star_star by_ r'
          else c :: replace_star_star by_ r
      | [] => [c]
      end
  end.

(** [Array.prototype.join]. *)
Fixpoint join (sep : string) (l : list string) : string :=
  match l with
  | [] => ""
  | [x] => x
  | x :: rest => (x ++ sep ++ join sep rest)%string
  end.

(** Decimal rendering of a length inside a template literal. *)
Definition of_nat (n : nat) : string :=
  NilEmpty.string_of_uint (Nat.to_uint n).

End Text.

Definition chars (s : string) : list ascii := list_ascii_of_string s.
Definition text (l : list ascii) : string := string_of_list_ascii l.

Definition toLowerCase (s : string) : string := text (Text.lower (chars s)).
Definition includes (s needle : string) : bool :=
  Text.includes (chars s) (chars needle).
Definition trim (s : string) : string := text (Text.trim (chars s)).

(** ** Regular expressions

    The fragment of the JavaScript pattern language that the hooks can build
    from plain keywords and glob patterns: literal characters, identity
    escapes of syntax characters, [.], the class [[^/]], the assertions [^],
    [$] and [\b], the quantifiers [*], [+] and [?] (greedy or lazy) on an
    atom, and alternation.  Groups, braces, other classes and other escapes
    are outside the fragment. *)

Module RegExp.

Inductive atom : Type :=
| AChar (c : ascii)
| ADot
| ANotSlash.

Inductive assertion : Type := Bol | Eol | WordB.

Inductive quant : Type := One | Star | Plus | Opt.

Inductive term : Type :=
| TAssert (a : assertion)
| TAtom (a : atom) (q : quant).

Definition alternative : Type := list term.
Definition regex : Type := list alternative.

Inductive token : Type :=
| KAtom (a : atom)
| KAssert (a : assertion)
| KStar | KPlus | KQuest | KBar
| KDangling     (* a backslash that ends the pattern *)
| KOther.       (* syntax outside the fragment *)

Definition syntax_chars : list ascii :=
  ["^"; "$"; "\"; "."; "*"; "+"; "?"; "("; ")"; "["; "]"; "{"; "}"; "|"]%char.

Definition is_syntax_char (c : ascii) : bool :=
  existsb (fun x => (x =? c)%char) syntax_chars.

Definition plain_token (c : ascii) : token :=
  if (c =? ".")%char then KAtom ADot
  else if (c =? "^")%char then KAssert Bol
  else if (c =? "$")%char then KAssert Eol
  else if (c =? "*")%char then KStar
  else if (c =? "+")%char then KPlus
  else if (c =? "?")%char then KQuest
  else if (c =? "|")%char then KBar
  else if is_syntax_char c then KOther
  else KAtom (AChar c).

Definition escape_token (e : ascii) : token :=
  if (e =? "b")%char then KAssert WordB
  else if is_syntax_char e || (e =? "/")%char then KAtom (AChar e)
  else KOther.

Fixpoint lex (s : list ascii) : list token :=
  match s with
  | [] => []
  | c :: r =>
      if (c =? "\")%char then
        match r with
        | [] => [KDangling]
        | e :: r' => escape_token e :: lex r'
        end
      else if (c =? "[")%char then
        match r with
        | c1 :: c2 :: c3 :: r' =>
            if (c1 =? "^")%char && (c2 =? "/")%char && (c3 =? "]")%char
            then KAtom ANotSlash :: lex r'
            else [KOther]
        | _ => [KOther]
        end
      else plain_token c :: lex r
  end.

Inductive compiled : Type :=
| Regex (r : regex)
| Invalid        (* the constructor raises SyntaxError *)
| Outside.       (* the pattern leaves the fragment *)

Definition quantifier (t : token) : option quant :=
  match t with
  | KStar => Some Star
  | KPlus => Some Plus
  | KQuest => Some Opt
  | _ => None
  end.

(** [cur] is the current alternative, newest term first; [done] holds the
    finished alternatives, newest first. *)
Fixpoint parse (ts : list token) (cur : list term) (done : list alternative)
  : compiled :=
  match ts with
  | [] => Regex (rev (rev cur :: done))
  | KBar :: ts' => parse ts' [] (rev cur :: done)
  | KAssert a :: ts' => parse ts' (TAssert a :: cur) done
  | KAtom a :: ts' =>
      match ts' with
      | [] => parse ts' (TAtom a One :: cur) done
      | t :: ts'' =>
          match quantifier t with
          | None => parse ts' (TAtom a One :: cur) done
          | Some q =>
              match ts'' with
              | KQuest :: ts3 => parse ts3 (TAtom a q :: cur) done
              | _ => parse ts'' (TAtom a q :: cur) done
              end
          end
      end
  | KStar :: _ | KPlus :: _ | KQuest :: _ => Invalid   (* nothing to repeat *)
  | KDangling :: _ => Invalid
  | KOther :: _ => Outside
  end.

Definition compile (source : list ascii) : compiled :=
  parse (lex source) [] [].

Section Matching.

(** The [i] flag. *)
Variable icase : bool.

Definition same_char (x c : ascii) : bool :=
  if icase then (Text.canonical x =? Text.canonical c)%char
  else (x =? c)%char.

Definition atom_matches (a : atom) (c : ascii) : bool :=
  match a with
  | AChar x => same_char x c
  | ADot => negb (Text.is_line_terminator c)
  | ANotSlash => negb (c =? "/")%char
  end.

Definition word_before (prev : option ascii) : bool :=
  match prev with Some c => Text.is_word c | None => false end.

Definition word_after (s : list ascii) : bool :=
  match s with c :: _ => Text.is_word c | [] => false end.

(** [prev] is the character before the current position, [s] what
    follows it. *)
Definition holds (a : assertion) (prev : option ascii) (s : list ascii)
  : bool :=
  match a with
  | Bol => match prev with None => true | Some _ => false end
  | Eol => match s with [] => true | _ :: _ => false end
  | WordB => xorb (word_before prev) (word_after s)
  end.

Definition one (ok : ascii -> bool)
           (k : option ascii -> list ascii -> bool)
           (s : list ascii) : bool :=
  match s with
  | c :: s' => ok c && k (Some c) s'
  | [] => false
  end.

(** Zero or more characters accepted by [ok], then the continuation. *)
Fixpoint star (ok : ascii -> bool)
         (k : option ascii -> list ascii -> bool)
         (prev : option ascii) (s : list ascii) : bool :=
  k prev s ||
  match s with
  | c :: s' => ok c && star ok k (Some c) s'
  | [] => false
  end.

(** Does the alternative match at the current position? *)
Fixpoint match_here (ts : alternative)
  : option ascii -> list ascii -> bool :=
  match ts with
  | [] => fun _ _ => true
  | TAssert a :: ts' =>
      fun prev s => holds a prev s && match_here ts' prev s
  | TAtom a q :: ts' =>
      let k := match_here ts' in
      let ok := atom_matches a in
      match q with
      | One => fun _ s => one ok k s
      | Star => star ok k
      | Plus => fun _ s => one ok (star ok k) s
      | Opt => fun prev s => k prev s || one ok k s
      end
  end.

Definition match_at (r : regex) (prev : option ascii) (s : list ascii)
  : bool :=
  existsb (fun alt => match_here alt prev s) r.

(** The match may start at any index, tried from the left. *)
Fixpoint search (r : regex) (prev : option ascii) (s : list ascii) : bool :=
  match_at r prev s ||
  match s with
  | c :: s' => search r (Some c) s'
  | [] => false
  end.

End Matching.

(** [new RegExp(source, flags).test(subject)] for a fresh, non-global
    expression; [icase] tells whether [flags] is ["i"]. *)
Definition test (icase : bool) (source subject : string) : outcome bool :=
  match compile (chars source) with
  | Regex r => Return (search icase r None (chars subject))
  | Invalid => Raise (SyntaxError source)
  | Outside => Unmodelled
  end.

End RegExp.


(** ** What the environment delivers *)

(** A file as the hooks see it through [existsSync], [readFileSync] and
    [JSON.parse]. *)
Inductive disk_file (A : Type) : Type :=
| Missing                (* existsSync is false *)
| Unreadable             (* the file exists, readFileSync raises *)
| Malformed              (* the text is read, JSON.parse raises *)
| Holds (v : A).         (* JSON.parse returns [v] *)

Arguments Missing {A}.
Arguments Unreadable {A}.
Arguments Malformed {A}.
Arguments Holds {A} v.

(** Lines written with [console.error]. *)
Inductive diag : Type :=
| ErrorLoadingRules (e : error)  (* Error loading skill-rules.json: <message> *)
| HookError (e : error)          (* Hook error: <message> *)
| ErrorInHook (e : error)        (* Error in skill-activation-prompt hook: <err> *)
| DebugSuggested (names : string). (* [DEBUG] Suggested skills: <names> *)

(** What a run of a hook leaves behind. *)
Record run : Type := Run {
  stdout : list string;
  stderr : list diag;
  exit_code : Z
}.

Definition nl : string := String (ascii_of_nat 10) EmptyString.

(** [Array.prototype.some] and [Array.prototype.filter] with a callback that
    may raise: elements are visited from the left and [some] stops at the
    first hit. *)
Fixpoint some {A : Type} (f : A -> outcome bool) (l : list A) : outcome bool :=
  match l with
  | [] => Return false
  | x :: rest => b <- f x ;; if b : bool then Return true else some f rest
  end.

Fixpoint filterM {A : Type} (f : A -> outcome bool) (l : list A)
  : outcome (list A) :=
  match l with
  | [] => Return []
  | x :: rest =>
      b <- f x ;;
      kept <- filterM f rest ;;
      Return (if b : bool then x :: kept else kept)
  end.

(** ** The JavaScript hook *)

Module JS.

Record Triggers : Type := {
  keywords : option (list string);
  intentPatterns : option (list string);
  filePatterns : option (list string);
  excludePatterns : option (list string)
}.

Record Skill : Type := {
  name : string;
  description : string;
  mode : string;
  priority : string;
  triggers : option Triggers
}.

Record SkillRules : Type := { skills : option (list Skill) }.

Module Suggestion.
Record t : Type := Make {
  skillName : string;
  description : string;
  mode : string;
  priority : string;
  score : nat;
  reasons : list string
}.
End Suggestion.

Record Analysis : Type := {
  suggestions : list Suggestion.t;
  blockingSkills : list Suggestion.t
}.

Record HookInput : Type := {
  prompt : option string;
  files : option (list string);
  context_files : option (list string)
}.

(** [loadSkillRules]: the rule collection and what was logged. *)
Definition loadSkillRules (rulesFile : disk_file SkillRules)
  : SkillRules * list diag :=
  match rulesFile with
  | Missing => ({| skills := Some [] |}, [])
  | Unreadable => ({| skills := Some [] |}, [ErrorLoadingRules IOError])
  | Malformed => ({| skills := Some [] |}, [ErrorLoadingRules JSONError])
  | Holds v => (v, [])
  end.

(** The four chained [replace] calls of [matchesFilePattern]. *)
Definition regexPattern (pattern : string) : string :=
  text
    (Text.replace_char "?" (chars ".")
      (Text.replace_char "*" (chars "[^/]*")
        (Text.replace_star_star (chars ".*")
          (Text.replace_char "." (chars "\.") (chars pattern))))).

Definition matchesFilePattern (filePath : string)
           (patterns : option (list string)) : outcome bool :=
  match patterns with
  | None => Return false
  | Some [] => Return false
  | Some ps =>
      some (fun pattern =>
              RegExp.test false ("^" ++ regexPattern pattern ++ "$") filePath)
           ps
  end.

Definition containsKeywords (text : string)
           (keywords : option (list string)) : outcome bool :=
  match keywords with
  | None => Return false
  | Some [] => Return false
  | Some ks =>
      let lowerText := toLowerCase text in
      some (fun keyword =>
              let lowerKeyword := toLowerCase keyword in
              RegExp.test true ("\b" ++ lowerKeyword ++ "\b") lowerText)
           ks
  end.

Definition matchesIntent (text : string) (patterns : option (list string))
  : bool :=
  match patterns with
  | None => false
  | Some [] => false
  | Some ps =>
      let lowerText := toLowerCase text in
      existsb (fun pattern => includes lowerText (toLowerCase pattern)) ps
  end.

(** [skill.triggers?.field]. *)
Definition trigger (field : Triggers -> option (list string)) (skill : Skill)
  : option (list string) :=
  match triggers skill with
  | Some t => field t
  | None => None
  end.

(** The running [score] and [matchReasons] of one loop iteration. *)
Definition tally : Type := (nat * list string)%type.

Definition keywordCheck (prompt : string) (skill : Skill) (st : tally)
  : outcome tally :=
  match trigger keywords skill with
  | Some ks =>
      hit <- containsKeywords prompt (Some ks) ;;
      Return (if hit : bool
              then (fst st + 2, snd st ++ ["keyword match"])
              else st)
  | None => Return st
  end.

Definition intentCheck (prompt : string) (skill : Skill) (st : tally)
  : tally :=
  match trigger intentPatterns skill with
  | Some ps =>
      if matchesIntent prompt (Some ps)
      then (fst st + 3, snd st ++ ["intent match"])
      else st
  | None => st
  end.

Definition fileReason (n : nat) : string :=
  "file context (" ++ Text.of_nat n ++ " files)".

Definition fileCheck (contextFiles : list string) (skill : Skill) (st : tally)
  : outcome tally :=
  match trigger filePatterns skill, contextFiles with
  | Some fps, _ :: _ =>
      matchingFiles <-
        filterM (fun file => matchesFilePattern file (Some fps))
                contextFiles ;;
      if 0 <? List.length matchingFiles then
        let st' := (fst st + 2,
                    snd st ++ [fileReason (List.length matchingFiles)]) in
        match trigger excludePatterns skill with
        | Some eps =>
            excludedFiles <-
              filterM (fun file => matchesFilePattern file (Some eps))
                      matchingFiles ;;
            if List.length excludedFiles =? List.length matchingFiles
            then Return (0, ["excluded by pattern"])
            else Return st'
        | None => Return st'
        end
      else Return st
  | _, _ => Return st
  end.

(** The body of the loop of [analyzePrompt] up to the final test on the
    score: the three checks in their order. *)
Definition scoreSkill (prompt : string) (contextFiles : list string)
           (skill : Skill) : outcome tally :=
  st1 <- keywordCheck prompt skill (0, []) ;;
  fileCheck contextFiles skill (intentCheck prompt skill st1).

Definition suggestionOf (skill : Skill) (st : tally) : Suggestion.t :=
  Suggestion.Make (name skill) (description skill) (mode skill)
                  (priority skill) (fst st) (snd st).

(** The loop: [acc] holds [suggestions] and [blockingSkills] so far. *)
Fixpoint scan (prompt : string) (contextFiles : list string)
         (rules : list Skill) (acc : Analysis) : outcome Analysis :=
  match rules with
  | [] => Return acc
  | skill :: rest =>
      st <- scoreSkill prompt contextFiles skill ;;
      if 0 <? fst st then
        let suggestion := suggestionOf skill st in
        if String.eqb (mode skill) "block"
        then scan prompt contextFiles rest
               {| suggestions := suggestions acc;
                  blockingSkills := blockingSkills acc ++ [suggestion] |}
        else scan prompt contextFiles rest
               {| suggestions := suggestions acc ++ [suggestion];
                  blockingSkills := blockingSkills acc |}
      else scan prompt contextFiles rest acc
  end.

(** [Array.prototype.sort] with the comparator [b.score - a.score]: the
    stable sort by descending score. *)
Fixpoint insert (x : Suggestion.t) (l : list Suggestion.t)
  : list Suggestion.t :=
  match l with
  | [] => [x]
  | y :: rest =>
      if Suggestion.score x <? Suggestion.score y
      then y :: insert x rest
      else x :: l
  end.

Definition sort (l : list Suggestion.t) : list Suggestion.t :=
  fold_right insert [] l.

Definition analyzePrompt (rulesFile : disk_file SkillRules)
           (prompt : string) (contextFiles : list string)
  : list diag * outcome Analysis :=
  let (rules, log) := loadSkillRules rulesFile in
  (log,
   found <- scan prompt contextFiles
                 (match skills rules with Some l => l | None => [] end)
                 {| suggestions := []; blockingSkills := [] |} ;;
   Return {| suggestions := sort (suggestions found);
             blockingSkills := blockingSkills found |}).

Definition blockingEntry (skill : Suggestion.t) : string :=
  "**" ++ Suggestion.skillName skill ++ "**" ++ nl
  ++ Suggestion.description skill ++ nl
  ++ "Reason: " ++ Text.join ", " (Suggestion.reasons skill) ++ nl ++ nl
  ++ "Use: `/skill " ++ Suggestion.skillName skill
  ++ "` before making changes." ++ nl ++ nl.

Definition suggestionEntry (skill : Suggestion.t) : string :=
  "• **" ++ Suggestion.skillName skill ++ "** — "
  ++ Suggestion.description skill ++ nl
  ++ "  Match: " ++ Text.join ", " (Suggestion.reasons skill) ++ nl
  ++ "  Use: `/skill " ++ Suggestion.skillName skill ++ "`" ++ nl ++ nl.

(** The suggestions that [formatMessage] writes into the message. *)
Definition shownSuggestions (analysis : Analysis) : list Suggestion.t :=
  let n := List.length (suggestions analysis) in
  if (0 <? n) && (n <=? 3) then firstn 3 (suggestions analysis) else [].

(** [formatMessage]: [None] is [null]. *)
Definition formatMessage (analysis : Analysis) : option string :=
  match blockingSkills analysis, suggestions analysis with
  | [], [] => None
  | _, _ =>
      let blockingPart : string :=
        match blockingSkills analysis with
        | [] => ""
        | _ :: _ =>
            ("⛔ **SKILL REQUIRED BEFORE PROCEEDING**" ++ nl ++ nl
             ++ String.concat "" (map blockingEntry (blockingSkills analysis))
             ++ "---" ++ nl ++ nl)%string
        end in
      let suggestionPart : string :=
        match shownSuggestions analysis with
        | [] => ""
        | shown =>
            ("💡 **Suggested Skills** (based on your prompt and context):"
             ++ nl ++ nl
             ++ String.concat "" (map suggestionEntry shown))%string
        end in
      Some (trim (blockingPart ++ suggestionPart)%string)
  end.

Definition quiet : run := Run [] [] 0.

(** [input.prompt || ""] and [input.files || input.context_files || []]. *)
Definition userPromptOf (input : HookInput) : string :=
  match prompt input with Some p => p | None => "" end.

Definition contextFilesOf (input : HookInput) : list string :=
  match files input with
  | Some l => l
  | None => match context_files input with Some l => l | None => [] end
  end.

(** [main], from the parsed standard input ([None] when [readStdin]
    rejects) and the state of the rule file.  [None] as a result: the run
    left the modelled fragment of regular expressions. *)
Definition main (stdin : option HookInput)
           (rulesFile : disk_file SkillRules) : option run :=
  match stdin with
  | None => Some (Run [] [HookError JSONError] 0)
  | Some input =>
      let userPrompt := userPromptOf input in
      let contextFiles := contextFilesOf input in
      if String.eqb userPrompt "" then Some quiet
      else
        let (log, result) := analyzePrompt rulesFile userPrompt contextFiles in
        match result with
        | Return analysis =>
            match formatMessage analysis with
            | Some message =>
                if String.eqb message "" then Some (Run [] log 0)
                else Some (Run [message] log 0)
            | None => Some (Run [] log 0)
            end
        | Raise e => Some (Run [] (log ++ [HookError e]) 0)
        | Unmodelled => None
        end
  end.

End JS.

(** ** The TypeScript hook *)

Module TS.

Record PromptTriggers : Type := {
  keywords : option (list string);
  intentPatterns : option (list string)
}.

Record SkillRule : Type := {
  type : string;
  enforcement : string;
  priority : string;
  promptTriggers : option PromptTriggers
}.

(** [skills] lists the entries of the mapping in the order of
    [Object.entries]. *)
Record SkillRules : Type := {
  version : string;
  skills : list (string * SkillRule)
}.

Inductive matchType : Type := keyword | intent.

Record MatchedSkill : Type := {
  name : string;
  kind : matchType;
  config : SkillRule
}.

(** The parsed standard input; only [prompt] is read. *)
Record HookInput : Type := { prompt : option string }.

(** The environment: the project rule file when [CLAUDE_PROJECT_DIR] is
    set, and the global rule file under the home directory. *)
Record Env : Type := {
  projectRules : option (disk_file SkillRules);
  globalRules : disk_file SkillRules
}.

Definition exists_ {A : Type} (f : disk_file A) : bool :=
  match f with Missing => false | _ => true end.

(** [JSON.parse(readFileSync(path, 'utf-8'))]. *)
Definition readRules {A : Type} (f : disk_file A) : outcome A :=
  match f with
  | Missing => Raise IOError
  | Unreadable => Raise IOError
  | Malformed => Raise JSONError
  | Holds v => Return v
  end.

Definition rulesFile (env : Env) : disk_file SkillRules :=
  match projectRules env with
  | Some f => if exists_ f then f else globalRules env
  | None => globalRules env
  end.

Definition keywordMatch (prompt : string) (ks : list string) : bool :=
  existsb (fun kw => includes prompt (toLowerCase kw)) ks.

Definition intentMatch (prompt : string) (ps : list string) : outcome bool :=
  some (fun pattern => RegExp.test true pattern prompt) ps.

(** One iteration of the loop over the entries: the matches it pushes. *)
Definition checkSkill (prompt : string) (entry : string * SkillRule)
  : outcome (list MatchedSkill) :=
  let (skillName, config) := entry in
  match promptTriggers config with
  | None => Return []
  | Some triggers =>
      let byIntent :=
        match intentPatterns triggers with
        | Some ps =>
            hit <- intentMatch prompt ps ;;
            Return (if hit : bool
                    then [{| name := skillName; kind := intent;
                             config := config |}]
                    else [])
        | None => Return []
        end in
      match keywords triggers with
      | Some ks =>
          if keywordMatch prompt ks
          then Return [{| name := skillName; kind := keyword;
                          config := config |}]
          else byIntent
      | None => byIntent
      end
  end.

Fixpoint matchSkills (prompt : string) (entries : list (string * SkillRule))
  : outcome (list MatchedSkill) :=
  match entries with
  | [] => Return []
  | entry :: rest =>
      pushed <- checkSkill prompt entry ;;
      later <- matchSkills prompt rest ;;
      Return (pushed ++ later)
  end.

Definition isBlocking (s : MatchedSkill) : bool :=
  String.eqb (enforcement (config s)) "block".

Definition rule_ : string := "━━━━━━━━━━━━━━━━━━━━━━━━━━━━━━━━━━━━━━━".

Definition banner (blockingSkills : list MatchedSkill) : string :=
  rule_ ++ nl
  ++ "🎯 SKILL ACTIVATION REQUIRED" ++ nl
  ++ rule_ ++ nl ++ nl
  ++ "⚠️ REQUIRED SKILLS (must use before proceeding):" ++ nl
  ++ String.concat ""
       (map (fun s => ("  → " ++ name s ++ nl)%string) blockingSkills)
  ++ nl
  ++ "ACTION: Use Skill tool with the above skill(s) BEFORE responding" ++ nl
  ++ rule_ ++ nl.

(** The body of the [try] block: what is printed, or the exception. *)
Definition body (stdin : option HookInput) (env : Env)
  : outcome (list string * list diag) :=
  data <- match stdin with Some d => Return d | None => Raise JSONError end ;;
  prompt <- match prompt data with
            | Some p => Return (toLowerCase p)
            | None => Raise TypeError
            end ;;
  rules <- readRules (rulesFile env) ;;
  matchedSkills <- matchSkills prompt (skills rules) ;;
  let blockingSkills := filter isBlocking matchedSkills in
  let suggestedSkills := filter (fun s => negb (isBlocking s)) matchedSkills in
  Return (match blockingSkills with
          | [] => []
          | _ :: _ => [banner blockingSkills]
          end,
          match suggestedSkills with
          | [] => []
          | _ :: _ => [DebugSuggested (Text.join ", " (map name suggestedSkills))]
          end).

(** [main]; [None] when the run left the modelled fragment of regular
    expressions. *)
Definition main (stdin : option HookInput) (env : Env) : option run :=
  match body stdin env with
  | Return (out, log) => Some (Run out log 0)
  | Raise e => Some (Run [] [ErrorInHook e] 1)
  | Unmodelled => None
  end.

End TS.

(** ** Notions used to state the properties *)

(** A test that returned [true]. *)
Definition hit (m : outcome bool) : bool :=
  match m with Return true => true | _ => false end.

(** A call that ends without raising, inside the modelled fragment. *)
Definition returns {A : Type} (m : outcome A) : Prop :=
  exists a, m = Return a.

Module Score.

Import JS.

Definition keywordHit (prompt : string) (skill : Skill) : bool :=
  match trigger keywords skill with
  | Some ks => hit (containsKeywords prompt (Some ks))
  | None => false
  end.

Definition intentHit (prompt : string) (skill : Skill) : bool :=
  match trigger intentPatterns skill with
  | Some ps => matchesIntent prompt (Some ps)
  | None => false
  end.

(** The context files matched by [filePatterns]. *)
Definition matchingFiles (contextFiles : list string) (skill : Skill)
  : list string :=
  match trigger filePatterns skill with
  | Some fps =>
      filter (fun f => hit (matchesFilePattern f (Some fps))) contextFiles
  | None => []
  end.

Definition fileHit (contextFiles : list string) (skill : Skill) : bool :=
  0 <? List.length (matchingFiles contextFiles skill).

(** Every matching file is covered by an exclude pattern. *)
Definition allExcluded (contextFiles : list string) (skill : Skill) : bool :=
  match trigger excludePatterns skill with
  | Some eps =>
      forallb (fun f => hit (matchesFilePattern f (Some eps)))
              (matchingFiles contextFiles skill)
  | None => false
  end.

Definition excluded (contextFiles : list string) (skill : Skill) : bool :=
  fileHit contextFiles skill && allExcluded contextFiles skill.

(** The additive score and its reasons, in the order of the checks. *)
Definition sum (k i f : bool) : nat :=
  (if k then 2 else 0) + (if i then 3 else 0) + (if f then 2 else 0).

Definition why (k i f : bool) (n : nat) : list string :=
  (if k then ["keyword match"] else [])
  ++ (if i then ["intent match"] else [])
  ++ (if f then [fileReason n] else []).

(** No regular expression built for this rule and input raises or leaves
    the modelled fragment. *)
Definition settled (prompt : string) (contextFiles : list string)
           (skill : Skill) : Prop :=
  (forall ks, trigger keywords skill = Some ks ->
              returns (containsKeywords prompt (Some ks)))
  /\ (forall fps f, trigger filePatterns skill = Some fps ->
                    In f contextFiles ->
                    returns (matchesFilePattern f (Some fps)))
  /\ (forall eps f, trigger excludePatterns skill = Some eps ->
                    In f (matchingFiles contextFiles skill) ->
                    returns (matchesFilePattern f (Some eps))).

(** The rule with its [excludePatterns] replaced. *)
Definition withExclude (eps : option (list string)) (skill : Skill) : Skill :=
  match triggers skill with
  | Some t =>
      {| name := name skill; description := description skill;
         mode := mode skill; priority := priority skill;
         triggers := Some {| keywords := keywords t;
                             intentPatterns := intentPatterns t;
                             filePatterns := filePatterns t;
                             excludePatterns := eps |} |}
  | None => skill
  end.

End Score.

(** ** Sample rules and inputs *)

Module Sample.

Import JS.

Definition rule (n m : string) (t : Triggers) : Skill :=
  {| name := n; description := "guidance for " ++ n; mode := m;
     priority := "high"; triggers := Some t |}.

Definition onKeywords (ks : list string) : Triggers :=
  {| keywords := Some ks; intentPatterns := None;
     filePatterns := None; excludePatterns := None |}.

(** Scenario 3 of the specification, with a keyword and an intent added. *)
Definition sqlRule : Skill :=
  rule "sql-guidelines" "suggest"
       {| keywords := Some ["migrate"];
          intentPatterns := Some ["run the migration"];
          filePatterns := Some ["*.sql"];
          excludePatterns := Some ["*_test.sql"] |}.

Definition apiRule (n : string) : Skill :=
  rule n "suggest" (onKeywords ["api"]).

Definition guardRule : Skill :=
  rule "db-guard" "block"
       {| keywords := None; intentPatterns := Some ["delete the production"];
          filePatterns := None; excludePatterns := None |}.

Definition ask (p : string) (fs : list string) : HookInput :=
  {| prompt := Some p; files := Some fs; context_files := None |}.

Definition collection (l : list Skill) : disk_file SkillRules :=
  Holds {| skills := Some l |}.

(** A keyword that is not a valid regular expression once wrapped. *)
Definition cppRule : Skill := rule "cpp-guidelines" "suggest" (onKeywords ["c++"]).

Definition fourRules : list Skill :=
  [apiRule "rest-design"; apiRule "api-testing"; apiRule "api-docs";
   apiRule "api-security"].

Definition tsRule (e : string) (ks ps : option (list string)) : TS.SkillRule :=
  {| TS.type := "domain"; TS.enforcement := e; TS.priority := "high";
     TS.promptTriggers :=
       Some {| TS.keywords := ks; TS.intentPatterns := ps |} |}.

Definition tsRules (l : list (string * TS.SkillRule)) : disk_file TS.SkillRules :=
  Holds {| TS.version := "1.0"; TS.skills := l |}.

Definition tsAsk (p : string) : TS.HookInput := {| TS.prompt := Some p |}.

Definition globalOnly (f : disk_file TS.SkillRules) : TS.Env :=
  {| TS.projectRules := None; TS.globalRules := f |}.

End Sample.

(** ** The decision as a partition of the rules *)

Module Decision.

Import JS.

Definition isBlock (skill : Skill) : bool := String.eqb (mode skill) "block".

(** What one rule with tally [st] adds to a bucket: one entry when the
    score is positive and the mode selects that bucket, nothing otherwise. *)
Definition contribution (blocking : bool) (entry : Skill * tally)
  : list Suggestion.t :=
  let (skill, st) := entry in
  if (0 <? fst st) && Bool.eqb (isBlock skill) blocking
  then [suggestionOf skill st]
  else [].

Definition bucket (blocking : bool) (scored : list (Skill * tally))
  : list Suggestion.t :=
  flat_map (contribution blocking) scored.

(** The rules that [analyzePrompt] iterates over. *)
Definition rulesOf (rulesFile : disk_file SkillRules) : list Skill :=
  match skills (fst (loadSkillRules rulesFile)) with
  | Some l => l
  | None => []
  end.

(** Descending scores. *)
Definition descending (l : list Suggestion.t) : Prop :=
  StronglySorted (fun a b => Suggestion.score b <= Suggestion.score a) l.

End Decision.

(** A location that does not hold an existing, parseable rule collection. *)
Definition unusable {A : Type} (f : disk_file A) : Prop :=
  match f with
  | Holds _ => False
  | _ => True
  end.

(** The empty decision. *)
Definition emptyAnalysis : JS.Analysis :=
  {| JS.suggestions := []; JS.blockingSkills := [] |}.

(** ** Occurrences of a keyword *)

Module Keyword.

(** A keyword without characters that are syntax in a regular expression. *)
Definition plain (kw : string) : bool :=
  forallb (fun c => negb (RegExp.is_syntax_char c)) (chars kw).

(** The last character of [l], or [prev] when [l] is empty. *)
Definition lastOf (prev : option ascii) (l : list ascii) : option ascii :=
  fold_left (fun _ c => Some c) l prev.

(** A word boundary between [pre] and [post]: exactly one of the two
    neighbouring positions holds a word character. *)
Definition boundary (pre post : list ascii) : bool :=
  xorb (RegExp.word_before (lastOf None pre)) (RegExp.word_after post).

(** [kw] occurs in [subject], letter case ignored. *)
Definition occurs (kw subject : string) : Prop :=
  exists pre mid post,
    chars subject = pre ++ mid ++ post
    /\ Text.lower mid = Text.lower (chars kw).

(** [kw] occurs in [subject], letter case ignored, with a word boundary on
    each side. *)
Definition occursAsWord (kw subject : string) : Prop :=
  exists pre mid post,
    chars subject = pre ++ mid ++ post
    /\ Text.lower mid = Text.lower (chars kw)
    /\ boundary pre (mid ++ post) = true
    /\ boundary (pre ++ mid) post = true.

(** The terms of a pattern made of literal characters. *)
Definition literal (l : list ascii) : RegExp.alternative :=
  map (fun c => RegExp.TAtom (RegExp.AChar c) RegExp.One) l.

End Keyword.

(** ** Notions for the further properties *)

Module Extra.

(** A trigger list that is absent or empty. *)
Definition noTrigger (o : option (list string)) : bool :=
  match o with
  | None => true
  | Some [] => true
  | Some (_ :: _) => false
  end.

(** A rule none of whose keyword, intent and file triggers is filled in. *)
Definition dormant (skill : JS.Skill) : bool :=
  noTrigger (JS.trigger JS.keywords skill)
  && noTrigger (JS.trigger JS.intentPatterns skill)
  && noTrigger (JS.trigger JS.filePatterns skill).

(** What holds of every entry of a decision. *)
Definition sound (s : JS.Suggestion.t) : Prop :=
  2 <= JS.Suggestion.score s <= 7
  /\ JS.Suggestion.reasons s <> []
  /\ List.length (JS.Suggestion.reasons s) <= 3
  /\ ~ In "excluded by pattern" (JS.Suggestion.reasons s).

(** The same, of a tally with a positive score. *)
Definition soundTally (st : JS.tally) : Prop :=
  2 <= fst st <= 7
  /\ snd st <> []
  /\ List.length (snd st) <= 3
  /\ ~ In "excluded by pattern" (snd st).

(** The entries of a trigger list, none when it is absent. *)
Definition listed (o : option (list string)) : list string :=
  match o with
  | Some l => l
  | None => []
  end.

(** The rule file of the JavaScript hook holding the rules [l]. *)
Definition holding (l : list JS.Skill) : disk_file JS.SkillRules :=
  Holds {| JS.skills := Some l |}.

(** The TypeScript rule file with the entries [l]. *)
Definition mapping (l : list (string * TS.SkillRule)) : TS.SkillRules :=
  {| TS.version := "1.0"; TS.skills := l |}.

End Extra.

(** ** Glob patterns *)

Module Glob.

(** A character that a pattern matches literally: the dot, and every
    character that is not syntax in a regular expression. *)
Definition ordinary (c : ascii) : bool :=
  (c =? ".")%char || negb (RegExp.is_syntax_char c).

(** Patterns made of ordinary characters, [?] and stars that stand alone. *)
Fixpoint simple (p : list ascii) : bool :=
  match p with
  | [] => true
  | c :: r =>
      if (c =? "*")%char
      then match r with
           | d :: _ => negb (d =? "*")%char
           | [] => true
           end && simple r
      else ((c =? "?")%char || ordinary c) && simple r
  end.

(** What a simple pattern accepts: a star stands for a run of characters
    other than the separator, a question mark for one character that is not
    a line terminator, any other character for itself; the whole path is
    consumed. *)
Fixpoint matches (p : list ascii) (s : list ascii) : Prop :=
  match p with
  | [] => s = []
  | c :: r =>
      if (c =? "*")%char then
        exists run rest, s = run ++ rest /\ ~ In "/"%char run /\ matches r rest
      else if (c =? "?")%char then
        exists x rest,
          s = x :: rest /\ Text.is_line_terminator x = false /\ matches r rest
      else
        exists rest, s = c :: rest /\ matches r rest
  end.

(** The piece of regular expression written for one character, its tokens
    and its term. *)
Definition source (c : ascii) : list ascii :=
  if (c =? ".")%char then ["\"; "."]%char
  else if (c =? "*")%char then ["["; "^"; "/"; "]"; "*"]%char
  else if (c =? "?")%char then ["."]%char
  else [c].

Definition tokens (c : ascii) : list RegExp.token :=
  if (c =? "*")%char then [RegExp.KAtom RegExp.ANotSlash; RegExp.KStar]
  else if (c =? "?")%char then [RegExp.KAtom RegExp.ADot]
  else [RegExp.KAtom (RegExp.AChar c)].

Definition term (c : ascii) : RegExp.term :=
  if (c =? "*")%char then RegExp.TAtom RegExp.ANotSlash RegExp.Star
  else if (c =? "?")%char then RegExp.TAtom RegExp.ADot RegExp.One
  else RegExp.TAtom (RegExp.AChar c) RegExp.One.

(** The four replacements of [matchesFilePattern] on a list of characters. *)
Definition translate (p : list ascii) : list ascii :=
  Text.replace_char "?" (chars ".")
    (Text.replace_char "*" (chars "[^/]*")
      (Text.replace_star_star (chars ".*")
        (Text.replace_char "." (chars "\.") p))).

End Glob.

(** ** General facts *)

Unset Implicit Arguments.

Lemma returns_Return {A : Type} (a : A) : returns (Return a).
Proof. exists a; reflexivity. Qed.

Lemma hit_Return (b : bool) : hit (Return b) = b.
Proof. destruct b; reflexivity. Qed.

Lemma filterM_returns {A : Type} (f : A -> outcome bool) (l : list A) :
  (forall x, In x l -> returns (f x)) ->
  filterM f l = Return (filter (fun x => hit (f x)) l).
Proof.
  induction l as [|x l IH]; intros H; simpl.
  - reflexivity.
  - destruct (H x (or_introl eq_refl)) as [b Hb].
    rewrite Hb, IH by (intros y Hy; apply H; right; exact Hy).
    destruct b; reflexivity.
Qed.

Lemma filter_length_all {A : Type} (p : A -> bool) (l : list A) :
  (List.length (filter p l) =? List.length l) = forallb p l.
Proof.
  assert (Hle : forall l', List.length (filter p l') <= List.length l').
  { induction l' as [|y l' IH]; simpl; [lia|]. destruct (p y); simpl; lia. }
  induction l as [|x l IH]; simpl.
  - reflexivity.
  - destruct (p x); simpl.
    + exact IH.
    + apply Nat.eqb_neq. specialize (Hle l). lia.
Qed.

(** ** The scorer in closed form *)

Section Scorer.

Import JS Score.

Variables (prompt : string) (contextFiles : list string) (skill : Skill).

Lemma keywordCheck_settled (st : tally) :
  (forall ks, trigger keywords skill = Some ks ->
              returns (containsKeywords prompt (Some ks))) ->
  keywordCheck prompt skill st =
  Return (if keywordHit prompt skill
          then (fst st + 2, snd st ++ ["keyword match"]) else st).
Proof.
  intros H. unfold keywordCheck, keywordHit.
  destruct (trigger keywords skill) as [ks|]; [|reflexivity].
  destruct (H ks eq_refl) as [b Hb]. rewrite Hb.
  destruct b; reflexivity.
Qed.

Lemma intentCheck_closed (st : tally) :
  intentCheck prompt skill st =
  if intentHit prompt skill
  then (fst st + 3, snd st ++ ["intent match"]) else st.
Proof.
  unfold intentCheck, intentHit.
  destruct (trigger intentPatterns skill); reflexivity.
Qed.

Lemma fileCheck_settled (st : tally) :
  (forall fps f, trigger filePatterns skill = Some fps ->
                 In f contextFiles ->
                 returns (matchesFilePattern f (Some fps))) ->
  (forall eps f, trigger excludePatterns skill = Some eps ->
                 In f (matchingFiles contextFiles skill) ->
                 returns (matchesFilePattern f (Some eps))) ->
  fileCheck contextFiles skill st =
  Return (if excluded contextFiles skill then (0, ["excluded by pattern"])
          else if fileHit contextFiles skill
               then (fst st + 2,
                     snd st ++ [fileReason
                                  (List.length
                                     (matchingFiles contextFiles skill))])
               else st).
Proof.
  intros Hf He.
  unfold fileCheck, excluded, allExcluded, fileHit, matchingFiles in *.
  destruct (trigger filePatterns skill) as [fps|]; [|reflexivity].
  destruct contextFiles as [|c0 cs] eqn:Ecf; [reflexivity|].
  rewrite filterM_returns by (intros x Hx; eapply Hf; eauto).
  cbn [bind].
  set (matching := filter _ (c0 :: cs)) in *.
  destruct (0 <? List.length matching) eqn:Epos; [|reflexivity].
  destruct (trigger excludePatterns skill) as [eps|]; [|reflexivity].
  rewrite filterM_returns by (intros x Hx; eapply He; eauto).
  cbn [bind andb]. rewrite filter_length_all.
  destruct (forallb _ matching); reflexivity.
Qed.

Lemma scoreSkill_settled :
  settled prompt contextFiles skill ->
  scoreSkill prompt contextFiles skill =
  Return (if excluded contextFiles skill then (0, ["excluded by pattern"])
          else (sum (keywordHit prompt skill) (intentHit prompt skill)
                    (fileHit contextFiles skill),
                why (keywordHit prompt skill) (intentHit prompt skill)
                    (fileHit contextFiles skill)
                    (List.length (matchingFiles contextFiles skill)))).
Proof.
  intros (Hk & Hf & He). unfold scoreSkill.
  rewrite (keywordCheck_settled _ Hk). cbn [bind].
  rewrite (fileCheck_settled _ Hf He), intentCheck_closed.
  destruct (excluded contextFiles skill); [reflexivity|].
  unfold sum, why.
  destruct (keywordHit prompt skill), (intentHit prompt skill),
    (fileHit contextFiles skill); reflexivity.
Qed.

End Scorer.

(** ** Properties of the scorer *)

Lemma matching_nonempty (contextFiles : list string) (skill : JS.Skill)
      (fps : list string) (f : string) :
  JS.trigger JS.filePatterns skill = Some fps ->
  In f contextFiles ->
  JS.matchesFilePattern f (Some fps) = Return true ->
  Score.fileHit contextFiles skill = true.
Proof.
  intros Hfps Hin Hm. unfold Score.fileHit, Score.matchingFiles.
  rewrite Hfps. apply Nat.ltb_lt.
  assert (Hf : In f (filter (fun x => hit (JS.matchesFilePattern x (Some fps)))
                            contextFiles)).
  { apply filter_In. split; [exact Hin|]. rewrite Hm. reflexivity. }
  destruct (filter _ contextFiles); [destruct Hf | simpl; lia].
Qed.

Lemma hit_true (m : outcome bool) : hit m = true -> m = Return true.
Proof. destruct m as [[|]| |]; simpl; congruence. Qed.

(** C2. When the file patterns of a rule match at least one context file and
    every matching file is also matched by an exclude pattern, the scorer
    ends with score 0 and the single reason "excluded by pattern", whatever
    the keyword and intent checks added before; the rule then leaves the
    accumulated analysis untouched. *)
Theorem exclusion_annuls_score :
  forall (prompt : string) (contextFiles : list string) (skill : JS.Skill)
         (fps eps : list string),
    JS.trigger JS.filePatterns skill = Some fps ->
    JS.trigger JS.excludePatterns skill = Some eps ->
    (forall ks, JS.trigger JS.keywords skill = Some ks ->
                returns (JS.containsKeywords prompt (Some ks))) ->
    (forall f, In f contextFiles ->
               returns (JS.matchesFilePattern f (Some fps))) ->
    (exists f, In f contextFiles
               /\ JS.matchesFilePattern f (Some fps) = Return true) ->
    (forall f, In f contextFiles ->
               JS.matchesFilePattern f (Some fps) = Return true ->
               JS.matchesFilePattern f (Some eps) = Return true) ->
    JS.scoreSkill prompt contextFiles skill
    = Return (0, ["excluded by pattern"])
    /\ forall acc, JS.scan prompt contextFiles [skill] acc = Return acc.
Proof.
  intros prompt contextFiles skill fps eps Hfps Heps Hk Hf [f0 [Hin0 Hm0]] Hall.
  assert (Hmatch : forall f, In f (Score.matchingFiles contextFiles skill) ->
                             JS.matchesFilePattern f (Some eps) = Return true).
  { intros f Hf'. unfold Score.matchingFiles in Hf'. rewrite Hfps in Hf'.
    apply filter_In in Hf'. destruct Hf' as [Hin Hh].
    apply Hall; [exact Hin | apply hit_true; exact Hh]. }
  assert (Hset : Score.settled prompt contextFiles skill).
  { split; [exact Hk|]. split.
    - intros fps' f E Hin. rewrite Hfps in E. injection E as <-. auto.
    - intros eps' f E Hin. rewrite Heps in E. injection E as <-.
      rewrite (Hmatch f Hin). apply returns_Return. }
  assert (Hex : Score.excluded contextFiles skill = true).
  { unfold Score.excluded.
    rewrite (matching_nonempty _ _ _ _ Hfps Hin0 Hm0). simpl.
    unfold Score.allExcluded. rewrite Heps. apply forallb_forall.
    intros f Hf'. rewrite (Hmatch f Hf'). reflexivity. }
  assert (Hscore : JS.scoreSkill prompt contextFiles skill
                   = Return (0, ["excluded by pattern"])).
  { rewrite (scoreSkill_settled _ _ _ Hset), Hex. reflexivity. }
  split; [exact Hscore|].
  intros acc. simpl. rewrite Hscore. reflexivity.
Qed.

Lemma exclusion_annuls_score_witness :
  JS.scoreSkill "please MIGRATE: run the migration" ["migrate_test.sql"]
                Sample.sqlRule
  = Return (0, ["excluded by pattern"])
  /\ forall acc,
      JS.scan "please MIGRATE: run the migration" ["migrate_test.sql"]
              [Sample.sqlRule] acc = Return acc.
Proof.
  apply (@exclusion_annuls_score
           "please MIGRATE: run the migration" ["migrate_test.sql"]
           Sample.sqlRule ["*.sql"] ["*_test.sql"]).
  - reflexivity.
  - reflexivity.
  - intros ks E. injection E as <-. exists true. vm_compute. reflexivity.
  - intros f [<-|[]]. exists true. vm_compute. reflexivity.
  - exists "migrate_test.sql". split; [left; reflexivity|].
    vm_compute. reflexivity.
  - intros f [<-|[]] _. vm_compute. reflexivity.
Defined.

(** C5. As long as the exclusion does not fire, the score is the sum of the
    fixed weights: 2 for a keyword hit, 3 for an intent hit, 2 for a file
    hit, with the reasons "keyword match", "intent match" and
    "file context (N files)" in that order, N being the number of matching
    context files; a file hit needs a context file; the score is positive
    exactly when one of the three triggers matches and 0 when none does. *)
Theorem score_is_additive :
  forall (prompt : string) (contextFiles : list string) (skill : JS.Skill),
    Score.settled prompt contextFiles skill ->
    Score.excluded contextFiles skill = false ->
    let k := Score.keywordHit prompt skill in
    let i := Score.intentHit prompt skill in
    let f := Score.fileHit contextFiles skill in
    let n := List.length (Score.matchingFiles contextFiles skill) in
    JS.scoreSkill prompt contextFiles skill
    = Return (2 * Nat.b2n k + 3 * Nat.b2n i + 2 * Nat.b2n f,
              (if k then ["keyword match"] else [])
              ++ (if i then ["intent match"] else [])
              ++ (if f then [("file context (" ++ Text.of_nat n ++ " files)")%string]
                  else []))
    /\ (contextFiles = [] -> f = false)
    /\ (0 < 2 * Nat.b2n k + 3 * Nat.b2n i + 2 * Nat.b2n f
        <-> k = true \/ i = true \/ f = true)
    /\ (2 * Nat.b2n k + 3 * Nat.b2n i + 2 * Nat.b2n f = 0
        <-> k = false /\ i = false /\ f = false).
Proof.
  intros prompt contextFiles skill Hset Hex k i f n.
  split; [|split; [|split]].
  - rewrite (scoreSkill_settled _ _ _ Hset), Hex.
    unfold Score.sum, Score.why, JS.fileReason. fold k i f n.
    destruct k, i, f; reflexivity.
  - intros ->. unfold f, Score.fileHit, Score.matchingFiles.
    destruct (JS.trigger JS.filePatterns skill); reflexivity.
  - destruct k, i, f; simpl; split; intros H; try lia; auto;
      destruct H as [H|[H|H]]; discriminate.
  - destruct k, i, f; simpl; split; intros H; try lia; auto;
      destruct H as (H1 & H2 & H3); discriminate.
Qed.

Lemma score_is_additive_witness :
  JS.scoreSkill "please MIGRATE: run the migration" ["db/one.sql"; "a.sql"; "b.sql"]
                Sample.sqlRule
  = Return (7, ["keyword match"; "intent match"; "file context (2 files)"]).
Proof.
  refine (proj1 (@score_is_additive
                   "please MIGRATE: run the migration"
                   ["db/one.sql"; "a.sql"; "b.sql"] Sample.sqlRule _ _)).
  - split; [|split].
    + intros ks E. injection E as <-. exists true. vm_compute. reflexivity.
    + intros fps f E Hin. injection E as <-.
      destruct Hin as [<-|[<-|[<-|[]]]]; eexists; vm_compute; reflexivity.
    + intros eps f E Hin. injection E as <-.
      vm_compute in Hin.
      destruct Hin as [<-|[<-|[]]]; eexists; vm_compute; reflexivity.
  - vm_compute. reflexivity.
Defined.

Lemma trigger_withExclude_keywords (eps : option (list string)) (skill : JS.Skill) :
  JS.trigger JS.keywords (Score.withExclude eps skill)
  = JS.trigger JS.keywords skill.
Proof.
  unfold Score.withExclude, JS.trigger.
  destruct (JS.triggers skill) eqn:E; simpl; rewrite ?E; reflexivity.
Qed.

Lemma trigger_withExclude_intent (eps : option (list string)) (skill : JS.Skill) :
  JS.trigger JS.intentPatterns (Score.withExclude eps skill)
  = JS.trigger JS.intentPatterns skill.
Proof.
  unfold Score.withExclude, JS.trigger.
  destruct (JS.triggers skill) eqn:E; simpl; rewrite ?E; reflexivity.
Qed.

Lemma trigger_withExclude_files (eps : option (list string)) (skill : JS.Skill) :
  JS.trigger JS.filePatterns (Score.withExclude eps skill)
  = JS.trigger JS.filePatterns skill.
Proof.
  unfold Score.withExclude, JS.trigger.
  destruct (JS.triggers skill) eqn:E; simpl; rewrite ?E; reflexivity.
Qed.

Lemma filterM_none {A : Type} (f : A -> outcome bool) (l : list A) :
  (forall x, In x l -> f x = Return false) -> filterM f l = Return [].
Proof.
  induction l as [|x l IH]; intros H; simpl; [reflexivity|].
  rewrite (H x (or_introl eq_refl)), IH; [reflexivity|].
  intros y Hy. apply H. right. exact Hy.
Qed.

(** C9. The exclusion can fire only after a context file matched the file
    patterns.  With no context file, no file patterns, or file patterns that
    match none of the context files, the outcome of the scorer is the tally of
    the keyword and intent checks alone, whatever the exclude patterns of the
    rule are: they are not consulted. *)
Theorem exclusion_needs_file_match :
  forall (prompt : string) (contextFiles : list string) (skill : JS.Skill),
    (contextFiles = []
     \/ JS.trigger JS.filePatterns skill = None
     \/ exists fps,
         JS.trigger JS.filePatterns skill = Some fps
         /\ forall f, In f contextFiles ->
                      JS.matchesFilePattern f (Some fps) = Return false) ->
    forall eps : option (list string),
      JS.scoreSkill prompt contextFiles (Score.withExclude eps skill)
      = (st <- JS.keywordCheck prompt skill (0, []) ;;
         Return (JS.intentCheck prompt skill st))
      /\ JS.scoreSkill prompt contextFiles skill
         = JS.scoreSkill prompt contextFiles (Score.withExclude eps skill).
Proof.
  intros prompt contextFiles skill H eps.
  assert (Hfile : forall sk st,
             JS.trigger JS.filePatterns sk = JS.trigger JS.filePatterns skill ->
             JS.fileCheck contextFiles sk st = Return st).
  { intros sk st E. unfold JS.fileCheck. rewrite E.
    destruct H as [-> | [-> | (fps & -> & Hnone)]].
    - destruct (JS.trigger JS.filePatterns skill); reflexivity.
    - reflexivity.
    - destruct contextFiles as [|c0 cs]; [reflexivity|].
      rewrite (filterM_none _ _ Hnone). reflexivity. }
  assert (Hgen : forall sk,
             JS.trigger JS.keywords sk = JS.trigger JS.keywords skill ->
             JS.trigger JS.intentPatterns sk
             = JS.trigger JS.intentPatterns skill ->
             JS.trigger JS.filePatterns sk = JS.trigger JS.filePatterns skill ->
             JS.scoreSkill prompt contextFiles sk
             = (st <- JS.keywordCheck prompt skill (0, []) ;;
                Return (JS.intentCheck prompt skill st))).
  { intros sk Ek Ei Ef. unfold JS.scoreSkill, JS.keywordCheck, JS.intentCheck.
    rewrite Ek, Ei.
    destruct (JS.trigger JS.keywords skill) as [ks|]; cbn [bind].
    - destruct (JS.containsKeywords prompt (Some ks)); cbn [bind];
        try reflexivity.
      apply Hfile. exact Ef.
    - apply Hfile. exact Ef. }
  split.
  - apply Hgen; [apply trigger_withExclude_keywords
                | apply trigger_withExclude_intent
                | apply trigger_withExclude_files].
  - rewrite (Hgen skill eq_refl eq_refl eq_refl).
    symmetry. apply Hgen; [apply trigger_withExclude_keywords
                          | apply trigger_withExclude_intent
                          | apply trigger_withExclude_files].
Qed.

Lemma exclusion_needs_file_match_witness :
  JS.scoreSkill "please MIGRATE: run the migration" ["notes.txt"]
                (Score.withExclude (Some ["+"]) Sample.sqlRule)
  = Return (5, ["keyword match"; "intent match"]).
Proof.
  refine (eq_trans
            (proj1 (exclusion_needs_file_match
                      "please MIGRATE: run the migration" ["notes.txt"]
                      Sample.sqlRule _ (Some ["+"]))) _).
  - right. right. exists ["*.sql"]. split; [reflexivity|].
    intros f [<-|[]]. vm_compute. reflexivity.
  - vm_compute. reflexivity.
Defined.

(** ** The resolver *)

Lemma insert_perm (x : JS.Suggestion.t) (l : list JS.Suggestion.t) :
  Permutation (JS.insert x l) (x :: l).
Proof.
  induction l as [|y l IH]; simpl; [apply Permutation_refl|].
  destruct (JS.Suggestion.score x <? JS.Suggestion.score y).
  - eapply Permutation_trans; [apply perm_skip, IH | apply perm_swap].
  - apply Permutation_refl.
Qed.

Lemma sort_perm (l : list JS.Suggestion.t) : Permutation (JS.sort l) l.
Proof.
  induction l as [|x l IH]; simpl; [apply Permutation_refl|].
  eapply Permutation_trans; [apply insert_perm | apply perm_skip, IH].
Qed.

Lemma insert_descending (x : JS.Suggestion.t) (l : list JS.Suggestion.t) :
  Decision.descending l -> Decision.descending (JS.insert x l).
Proof.
  unfold Decision.descending.
  induction l as [|y l IH]; intros Hs; simpl.
  - constructor; constructor.
  - inversion Hs as [|y' l' Hs' Hall]; subst.
    destruct (JS.Suggestion.score x <? JS.Suggestion.score y) eqn:E.
    + apply Nat.ltb_lt in E. constructor; [apply IH; exact Hs'|].
      apply (Permutation_Forall (Permutation_sym (insert_perm x l))).
      constructor; [lia | exact Hall].
    + apply Nat.ltb_ge in E. constructor; [exact Hs|].
      constructor; [exact E|].
      eapply Forall_impl; [|exact Hall]. simpl. intros a Ha. lia.
Qed.

Lemma sort_descending (l : list JS.Suggestion.t) :
  Decision.descending (JS.sort l).
Proof.
  induction l as [|x l IH]; simpl.
  - constructor.
  - apply insert_descending. exact IH.
Qed.

(** Stability: entries of one score keep their relative order. *)
Lemma insert_filter_score (n : nat) (x : JS.Suggestion.t)
      (l : list JS.Suggestion.t) :
  Decision.descending l ->
  filter (fun a => JS.Suggestion.score a =? n) (JS.insert x l)
  = filter (fun a => JS.Suggestion.score a =? n) (x :: l).
Proof.
  unfold Decision.descending.
  induction l as [|y l IH]; intros Hs; [reflexivity|].
  inversion Hs as [|y' l' Hs' Hall]; subst.
  cbn [JS.insert].
  destruct (JS.Suggestion.score x <? JS.Suggestion.score y) eqn:E;
    [|reflexivity].
  apply Nat.ltb_lt in E.
  cbn [filter]. rewrite (IH Hs'). cbn [filter].
  destruct (JS.Suggestion.score x =? n) eqn:Ex;
    destruct (JS.Suggestion.score y =? n) eqn:Ey; try reflexivity.
  apply Nat.eqb_eq in Ex, Ey. lia.
Qed.

Lemma sort_stable (n : nat) (l : list JS.Suggestion.t) :
  filter (fun a => JS.Suggestion.score a =? n) (JS.sort l)
  = filter (fun a => JS.Suggestion.score a =? n) l.
Proof.
  induction l as [|x l IH]; [reflexivity|].
  cbn [JS.sort fold_right]. fold (JS.sort l).
  rewrite insert_filter_score by apply sort_descending.
  cbn [filter]. rewrite IH. reflexivity.
Qed.

Lemma scan_spec (prompt : string) (contextFiles : list string) :
  forall (rules : list JS.Skill) (acc : JS.Analysis),
    Forall (fun sk => returns (JS.scoreSkill prompt contextFiles sk)) rules ->
    exists scored,
      Forall2 (fun sk entry =>
                 fst entry = sk
                 /\ JS.scoreSkill prompt contextFiles sk = Return (snd entry))
              rules scored
      /\ JS.scan prompt contextFiles rules acc
         = Return {| JS.suggestions :=
                       JS.suggestions acc ++ Decision.bucket false scored;
                     JS.blockingSkills :=
                       JS.blockingSkills acc ++ Decision.bucket true scored |}.
Proof.
  induction rules as [|sk rules IH]; intros acc Hall.
  - exists []. split; [constructor|]. simpl. rewrite !app_nil_r.
    destruct acc; reflexivity.
  - inversion Hall as [|sk' rules' [st Hst] Hrest]; subst.
    cbn [JS.scan]. rewrite Hst. cbn [bind].
    unfold Decision.bucket. 
    destruct (0 <? fst st) eqn:Epos.
    + destruct (String.eqb (JS.mode sk) "block") eqn:Emode.
      * destruct (IH {| JS.suggestions := JS.suggestions acc;
                        JS.blockingSkills :=
                          JS.blockingSkills acc ++ [JS.suggestionOf sk st] |}
                     Hrest) as (scored & HF & Hscan).
        exists ((sk, st) :: scored). split.
        { constructor; [split; [reflexivity | exact Hst] | exact HF]. }
        rewrite Hscan. cbn [flat_map Decision.contribution fst snd].
        unfold Decision.isBlock. rewrite Epos, Emode. cbn.
        rewrite <- app_assoc. reflexivity.
      * destruct (IH {| JS.suggestions :=
                          JS.suggestions acc ++ [JS.suggestionOf sk st];
                        JS.blockingSkills := JS.blockingSkills acc |}
                     Hrest) as (scored & HF & Hscan).
        exists ((sk, st) :: scored). split.
        { constructor; [split; [reflexivity | exact Hst] | exact HF]. }
        rewrite Hscan. cbn [flat_map Decision.contribution fst snd].
        unfold Decision.isBlock. rewrite Epos, Emode. cbn.
        rewrite <- app_assoc. reflexivity.
    + destruct (IH acc Hrest) as (scored & HF & Hscan).
      exists ((sk, st) :: scored). split.
      { constructor; [split; [reflexivity | exact Hst] | exact HF]. }
      rewrite Hscan. cbn [flat_map Decision.contribution fst snd].
      rewrite Epos. reflexivity.
Qed.

Lemma bucket_lengths (scored : list (JS.Skill * JS.tally)) :
  List.length (Decision.bucket true scored)
  + List.length (Decision.bucket false scored) <= List.length scored.
Proof.
  unfold Decision.bucket.
  induction scored as [|[sk st] scored IH]; simpl; [lia|].
  rewrite !length_app.
  destruct (0 <? fst st); destruct (Decision.isBlock sk); simpl; lia.
Qed.

Lemma contribution_exclusive (entry : JS.Skill * JS.tally) :
  List.length (Decision.contribution true entry)
  + List.length (Decision.contribution false entry) <= 1.
Proof.
  destruct entry as [sk st]. unfold Decision.contribution.
  destruct (0 <? fst st), (Decision.isBlock sk); simpl; lia.
Qed.

Lemma contribution_matched (entry : JS.Skill * JS.tally) :
  0 < fst (snd entry) ->
  (JS.mode (fst entry) = "block" ->
   Decision.contribution true entry
   = [JS.suggestionOf (fst entry) (snd entry)]
   /\ Decision.contribution false entry = [])
  /\ (JS.mode (fst entry) <> "block" ->
      Decision.contribution true entry = []
      /\ Decision.contribution false entry
         = [JS.suggestionOf (fst entry) (snd entry)]).
Proof.
  destruct entry as [sk st]. cbn [fst snd]. intros Hpos.
  apply Nat.ltb_lt in Hpos.
  unfold Decision.contribution, Decision.isBlock. rewrite Hpos.
  split; intros Hm.
  - apply String.eqb_eq in Hm. rewrite Hm. split; reflexivity.
  - apply String.eqb_neq in Hm. rewrite Hm. split; reflexivity.
Qed.

Lemma checkSkill_at_most_one (prompt : string) (entry : string * TS.SkillRule)
      (l : list TS.MatchedSkill) :
  TS.checkSkill prompt entry = Return l ->
  List.length l <= 1 /\ forall m, In m l -> TS.name m = fst entry.
Proof.
  destruct entry as [n cfg]. unfold TS.checkSkill.
  destruct (TS.promptTriggers cfg) as [t|].
  - assert (Hint : forall l',
               match TS.intentPatterns t with
               | Some ps =>
                   hit_ <- TS.intentMatch prompt ps ;;
                   Return (if hit_ : bool
                           then [{| TS.name := n; TS.kind := TS.intent;
                                    TS.config := cfg |}]
                           else [])
               | None => Return []
               end = Return l' ->
               List.length l' <= 1 /\ forall m, In m l' -> TS.name m = n).
    { intros l' H. destruct (TS.intentPatterns t) as [ps|].
      - destruct (TS.intentMatch prompt ps) as [[|]| |]; cbn [bind] in H;
          try discriminate; injection H as <-; simpl; (split; [lia|]).
        + intros m [<-|[]]. reflexivity.
        + intros m [].
      - injection H as <-. simpl. split; [lia | intros m []]. }
    destruct (TS.keywords t) as [ks|].
    + destruct (TS.keywordMatch prompt ks).
      * intros H. injection H as <-. simpl. split; [lia|].
        intros m [<-|[]]. reflexivity.
      * apply Hint.
    + apply Hint.
  - intros H. injection H as <-. simpl. split; [lia | intros m []].
Qed.

Lemma matchSkills_spec (prompt : string) :
  forall entries : list (string * TS.SkillRule),
    Forall (fun e => returns (TS.checkSkill prompt e)) entries ->
    exists pushed,
      Forall2 (fun e l => TS.checkSkill prompt e = Return l) entries pushed
      /\ TS.matchSkills prompt entries = Return (List.concat pushed).
Proof.
  induction entries as [|e entries IH]; intros Hall.
  - exists []. split; [constructor | reflexivity].
  - inversion Hall as [|e' es' [l Hl] Hrest]; subst.
    destruct (IH Hrest) as (pushed & HF & Hm).
    exists (l :: pushed). split; [constructor; assumption|].
    cbn [TS.matchSkills]. rewrite Hl, Hm. reflexivity.
Qed.

Lemma filter_partition_perm {A : Type} (p : A -> bool) (l : list A) :
  Permutation (filter p l ++ filter (fun x => negb (p x)) l) l.
Proof.
  induction l as [|x l IH]; simpl; [constructor|].
  destruct (p x); simpl.
  - apply perm_skip. exact IH.
  - apply Permutation_sym. apply Permutation_cons_app.
    apply Permutation_sym. exact IH.
Qed.

(** C10. Each rule adds at most one entry to the decision, and never to both
    buckets: with the rules scored one by one, the blocking bucket is made of
    the entries of the matched rules (score above 0) whose mode is "block",
    in declaration order, and the suggested bucket is a rearrangement of the
    entries of the other matched rules.  In the TypeScript hook every entry
    of the rule mapping pushes at most one match, and the blocking and the
    suggested lists split the matches. *)
Theorem each_rule_lands_in_one_bucket :
  (forall (rulesFile : disk_file JS.SkillRules) (prompt : string)
          (contextFiles : list string),
      Forall (fun sk => returns (JS.scoreSkill prompt contextFiles sk))
             (Decision.rulesOf rulesFile) ->
      exists scored analysis,
        Forall2 (fun sk entry =>
                   fst entry = sk
                   /\ JS.scoreSkill prompt contextFiles sk = Return (snd entry))
                (Decision.rulesOf rulesFile) scored
        /\ snd (JS.analyzePrompt rulesFile prompt contextFiles)
           = Return analysis
        /\ JS.blockingSkills analysis = Decision.bucket true scored
        /\ Permutation (JS.suggestions analysis) (Decision.bucket false scored)
        /\ (forall entry,
               List.length (Decision.contribution true entry)
               + List.length (Decision.contribution false entry) <= 1)
        /\ (forall entry,
               0 < fst (snd entry) ->
               (JS.mode (fst entry) = "block" ->
                Decision.contribution true entry
                = [JS.suggestionOf (fst entry) (snd entry)]
                /\ Decision.contribution false entry = [])
               /\ (JS.mode (fst entry) <> "block" ->
                   Decision.contribution true entry = []
                   /\ Decision.contribution false entry
                      = [JS.suggestionOf (fst entry) (snd entry)]))
        /\ List.length (JS.blockingSkills analysis)
           + List.length (JS.suggestions analysis)
           <= List.length (Decision.rulesOf rulesFile))
  /\ (forall (prompt : string) (entries : list (string * TS.SkillRule)),
         Forall (fun e => returns (TS.checkSkill prompt e)) entries ->
         exists pushed,
           Forall2 (fun e l =>
                      TS.checkSkill prompt e = Return l
                      /\ List.length l <= 1
                      /\ forall m, In m l -> TS.name m = fst e)
                   entries pushed
           /\ TS.matchSkills prompt entries = Return (List.concat pushed)
           /\ Permutation
                (filter TS.isBlocking (List.concat pushed)
                 ++ filter (fun s => negb (TS.isBlocking s)) (List.concat pushed))
                (List.concat pushed)).
Proof.
  split.
  - intros rulesFile prompt contextFiles Hall.
    destruct (scan_spec prompt contextFiles (Decision.rulesOf rulesFile)
                {| JS.suggestions := []; JS.blockingSkills := [] |} Hall)
      as (scored & HF & Hscan).
    exists scored.
    exists {| JS.suggestions := JS.sort (Decision.bucket false scored);
              JS.blockingSkills := Decision.bucket true scored |}.
    split; [exact HF|]. split.
    { unfold JS.analyzePrompt. unfold Decision.rulesOf in Hscan.
      destruct (JS.loadSkillRules rulesFile) as [rules log].
      cbn [fst snd] in *. rewrite Hscan. reflexivity. }
    split; [reflexivity|]. split; [apply sort_perm|].
    split; [apply contribution_exclusive|].
    split; [apply contribution_matched|].
    cbn [JS.blockingSkills JS.suggestions].
    rewrite (Permutation_length (sort_perm _)).
    rewrite (Forall2_length HF). apply bucket_lengths.
  - intros prompt entries Hall.
    destruct (matchSkills_spec prompt entries Hall) as (pushed & HF & Hm).
    exists pushed. split; [|split; [exact Hm | apply filter_partition_perm]].
    clear Hm Hall. induction HF as [|e l es ls He HF IH]; constructor.
    + split; [exact He|]. apply (checkSkill_at_most_one prompt e l He).
    + exact IH.
Qed.

Lemma each_rule_lands_in_one_bucket_witness :
  exists analysis,
    snd (JS.analyzePrompt
           (Sample.collection
              [Sample.guardRule; Sample.apiRule "rest-design"; Sample.sqlRule])
           "delete the production api" ["a.sql"])
    = Return analysis
    /\ List.length (JS.blockingSkills analysis)
       + List.length (JS.suggestions analysis) <= 3.
Proof.
  destruct (proj1 each_rule_lands_in_one_bucket
              (Sample.collection
                 [Sample.guardRule; Sample.apiRule "rest-design";
                  Sample.sqlRule])
              "delete the production api" ["a.sql"])
    as (scored & analysis & _ & Hrun & _ & _ & _ & _ & Hlen).
  - repeat constructor; eexists; vm_compute; reflexivity.
  - exists analysis. split; [exact Hrun | exact Hlen].
Defined.

(** ** Loading, short-circuit and the outermost boundary *)

Lemma loadSkillRules_unusable (rulesFile : disk_file JS.SkillRules) :
  unusable rulesFile ->
  fst (JS.loadSkillRules rulesFile) = {| JS.skills := Some [] |}.
Proof. destruct rulesFile; simpl; intros H; [reflexivity.. | destruct H]. Qed.

Lemma readRules_unusable (f : disk_file TS.SkillRules) :
  unusable f -> exists e, TS.readRules f = Raise e.
Proof.
  destruct f; simpl; intros H; try destruct H; eexists; reflexivity.
Qed.

(** C6, as the code has it.  The JavaScript loader reads one location; when
    that file is missing, unreadable or unparsable it returns the empty rule
    collection without raising, the decision is empty, nothing is printed and
    the hook exits with status 0.  The TypeScript hook chooses between the
    project and the global location; when the chosen file is missing,
    unreadable or unparsable it raises, logs the error and exits with
    status 1. *)
Theorem unusable_rule_file :
  (forall (rulesFile : disk_file JS.SkillRules) (prompt : string)
          (contextFiles : list string),
      unusable rulesFile ->
      fst (JS.loadSkillRules rulesFile) = {| JS.skills := Some [] |}
      /\ snd (JS.analyzePrompt rulesFile prompt contextFiles)
         = Return emptyAnalysis
      /\ JS.formatMessage emptyAnalysis = None
      /\ (forall input : JS.HookInput,
             JS.userPromptOf input <> "" ->
             JS.main (Some input) rulesFile
             = Some (Run [] (snd (JS.loadSkillRules rulesFile)) 0)))
  /\ (forall (prompt : string) (env : TS.Env),
         unusable (TS.rulesFile env) ->
         exists e,
           TS.main (Some {| TS.prompt := Some prompt |}) env
           = Some (Run [] [ErrorInHook e] 1)).
Proof.
  split.
  - intros rulesFile prompt contextFiles Hu.
    split; [apply loadSkillRules_unusable; exact Hu|].
    assert (Hrun : snd (JS.analyzePrompt rulesFile prompt contextFiles)
                   = Return emptyAnalysis).
    { destruct rulesFile; try reflexivity. destruct Hu. }
    split; [exact Hrun|]. split; [reflexivity|].
    intros input Hp. apply String.eqb_neq in Hp.
    unfold JS.main. rewrite Hp.
    destruct rulesFile; try reflexivity. destruct Hu.
  - intros prompt env Hu.
    destruct (readRules_unusable _ Hu) as [e He]. exists e.
    unfold TS.main, TS.body. cbn [TS.prompt bind].
    rewrite He. reflexivity.
Qed.

Lemma unusable_rule_file_witness :
  JS.main (Some (Sample.ask "add an api route" [])) Malformed
  = Some (Run [] [ErrorLoadingRules JSONError] 0)
  /\ exists e,
      TS.main (Some (Sample.tsAsk "add an api route"))
              {| TS.projectRules := Some Missing; TS.globalRules := Malformed |}
      = Some (Run [] [ErrorInHook e] 1).
Proof.
  split.
  - refine (proj2 (proj2 (proj2
             (proj1 unusable_rule_file Malformed "add an api route" [] _)))
             (Sample.ask "add an api route" []) _).
    + exact I.
    + discriminate.
  - apply (proj2 unusable_rule_file). exact I.
Defined.

(** C6 as it is stated fails on the hook that has two candidate locations:
    with neither file present the loader raises, and the run ends with a
    logged error and status 1 instead of an empty decision. *)
Lemma unusable_rule_file_counterexample :
  let env := {| TS.projectRules := Some Missing; TS.globalRules := Missing |} in
  unusable (TS.globalRules env)
  /\ TS.projectRules env = Some Missing
  /\ TS.readRules (TS.rulesFile env) = Raise IOError
  /\ TS.main (Some (Sample.tsAsk "add an api route")) env
     = Some (Run [] [ErrorInHook IOError] 1).
Proof. repeat split. Qed.

(** C7, as the code has it.  In the JavaScript hook an absent or empty prompt
    ends the run at once: whatever the rule file and the context files are,
    nothing is loaded, matched, printed or logged, and the status is 0.  The
    TypeScript hook has no such short-circuit: an absent prompt raises a
    TypeError that is logged with status 1, and an empty prompt goes on to
    load the rules, so that an unusable rule file ends the run with
    status 1. *)
Theorem empty_prompt :
  (forall (input : JS.HookInput) (rulesFile : disk_file JS.SkillRules),
      JS.prompt input = None \/ JS.prompt input = Some "" ->
      JS.main (Some input) rulesFile = Some (Run [] [] 0))
  /\ (forall env : TS.Env,
         TS.main (Some {| TS.prompt := None |}) env
         = Some (Run [] [ErrorInHook TypeError] 1))
  /\ (forall env : TS.Env,
         unusable (TS.rulesFile env) ->
         exists e,
           TS.main (Some {| TS.prompt := Some "" |}) env
           = Some (Run [] [ErrorInHook e] 1)).
Proof.
  split; [|split].
  - intros input rulesFile [H|H]; unfold JS.main, JS.userPromptOf;
      rewrite H; reflexivity.
  - intros env. reflexivity.
  - intros env Hu. destruct (readRules_unusable _ Hu) as [e He]. exists e.
    unfold TS.main, TS.body. cbn [TS.prompt bind]. rewrite He. reflexivity.
Qed.

Lemma empty_prompt_witness :
  JS.main (Some {| JS.prompt := Some ""; JS.files := Some ["a.sql"];
                   JS.context_files := None |})
          (Sample.collection [Sample.cppRule; Sample.sqlRule])
  = Some (Run [] [] 0).
Proof.
  apply (proj1 empty_prompt). right. reflexivity.
Defined.

(** C7 as it is stated fails on the TypeScript hook: with the prompt absent
    the run is not a silent success, and with the empty prompt the rules are
    still matched, so that a blocking rule whose intent pattern accepts the
    empty text gets its banner printed. *)
Lemma empty_prompt_counterexample :
  TS.main (Some {| TS.prompt := None |})
          (Sample.globalOnly
             (Sample.tsRules
                [("api-guidelines",
                  Sample.tsRule "suggest" (Some ["api"]) None)]))
  = Some (Run [] [ErrorInHook TypeError] 1)
  /\ exists banner,
      banner <> ""
      /\ TS.main (Some {| TS.prompt := Some "" |})
                 (Sample.globalOnly
                    (Sample.tsRules
                       [("always-on",
                         Sample.tsRule "block" None (Some [".*"]))]))
         = Some (Run [banner] [] 0).
Proof.
  split; [reflexivity|].
  eexists. split; [|vm_compute; reflexivity]. discriminate.
Qed.

(** C8, as the code has it.  An exception raised while the rules are matched
    and scored is caught by the [catch] of [main] and logged on the error
    stream in both hooks; nothing is printed.  The JavaScript hook then exits
    with status 0, the TypeScript hook with status 1. *)
Theorem exception_at_the_boundary :
  (forall (input : JS.HookInput) (rulesFile : disk_file JS.SkillRules)
          (e : error),
      JS.userPromptOf input <> "" ->
      snd (JS.analyzePrompt rulesFile (JS.userPromptOf input)
                            (JS.contextFilesOf input)) = Raise e ->
      JS.main (Some input) rulesFile
      = Some (Run [] (snd (JS.loadSkillRules rulesFile) ++ [HookError e]) 0))
  /\ (forall (prompt : string) (env : TS.Env) (rules : TS.SkillRules)
             (e : error),
         TS.readRules (TS.rulesFile env) = Return rules ->
         TS.matchSkills (toLowerCase prompt) (TS.skills rules) = Raise e ->
         TS.main (Some {| TS.prompt := Some prompt |}) env
         = Some (Run [] [ErrorInHook e] 1)).
Proof.
  split.
  - intros input rulesFile e Hp Hraise.
    apply String.eqb_neq in Hp.
    unfold JS.main. rewrite Hp. unfold JS.analyzePrompt in *.
    destruct (JS.loadSkillRules rulesFile) as [rules log].
    cbn [snd] in *. rewrite Hraise. reflexivity.
  - intros prompt env rules e Hread Hraise.
    unfold TS.main, TS.body. cbn [TS.prompt bind].
    rewrite Hread. cbn [bind]. rewrite Hraise. reflexivity.
Qed.

Lemma exception_at_the_boundary_witness :
  JS.main (Some (Sample.ask "port this to c++" []))
          (Sample.collection [Sample.cppRule])
  = Some (Run [] [HookError (SyntaxError "\bc++\b")] 0).
Proof.
  refine (proj1 exception_at_the_boundary
                (Sample.ask "port this to c++" [])
                (Sample.collection [Sample.cppRule])
                (SyntaxError "\bc++\b") _ _).
  - discriminate.
  - vm_compute. reflexivity.
Defined.

(** C8 as it is stated fails on the TypeScript hook: an intent pattern that
    is not a valid regular expression raises inside the matching loop, and
    the run ends with status 1. *)
Lemma exception_at_the_boundary_counterexample :
  let env :=
    Sample.globalOnly
      (Sample.tsRules
         [("api-guidelines", Sample.tsRule "suggest" None (Some ["*"]))]) in
  TS.matchSkills (toLowerCase "add an api route")
                 [("api-guidelines", Sample.tsRule "suggest" None (Some ["*"]))]
  = Raise (SyntaxError "*")
  /\ TS.main (Some (Sample.tsAsk "add an api route")) env
     = Some (Run [] [ErrorInHook (SyntaxError "*")] 1).
Proof. split; vm_compute; reflexivity. Qed.

(** ** The formatter *)

Lemma shown_when_many (analysis : JS.Analysis) :
  3 < List.length (JS.suggestions analysis) ->
  JS.shownSuggestions analysis = [].
Proof.
  intros H. unfold JS.shownSuggestions.
  destruct (List.length (JS.suggestions analysis) <=? 3) eqn:E.
  - apply Nat.leb_le in E. lia.
  - rewrite andb_false_r. reflexivity.
Qed.

Lemma shown_when_few (analysis : JS.Analysis) :
  List.length (JS.suggestions analysis) <= 3 ->
  JS.shownSuggestions analysis = JS.suggestions analysis.
Proof.
  intros H. unfold JS.shownSuggestions.
  destruct (JS.suggestions analysis) as [|a [|b [|c [|d l]]]];
    simpl in *; try reflexivity; lia.
Qed.

(** C1 at the input where it fails.  Four rules in suggest mode all match
    the prompt; the analysis holds the four of them, sorted, but
    [formatMessage] writes no suggestion at all, the message is empty and
    [main] prints nothing. *)
Theorem four_suggestions_none_shown :
  exists analysis,
    snd (JS.analyzePrompt (Sample.collection Sample.fourRules)
                          "document the API" [])
    = Return analysis
    /\ map JS.Suggestion.skillName (JS.suggestions analysis)
       = ["rest-design"; "api-testing"; "api-docs"; "api-security"]
    /\ JS.blockingSkills analysis = []
    /\ JS.shownSuggestions analysis = []
    /\ JS.formatMessage analysis = Some ""
    /\ JS.main (Some (Sample.ask "document the API" []))
               (Sample.collection Sample.fourRules)
       = Some (Run [] [] 0).
Proof.
  eexists. split; [vm_compute; reflexivity|].
  repeat split; vm_compute; reflexivity.
Qed.

(** C4 at the input where it fails.  The star written for [**] is rewritten
    by the next replacement, so that [**] ends up as one character followed
    by a run of non-separator characters and cannot span directories. *)
Theorem double_star_stays_in_one_directory :
  JS.regexPattern "**/*.ts" = ".[^/]*/[^/]*\.ts"
  /\ JS.matchesFilePattern "src/hooks/index.ts" (Some ["**/*.ts"])
     = Return false
  /\ JS.matchesFilePattern "src/index.ts" (Some ["**/*.ts"]) = Return true
  /\ JS.matchesFilePattern "src/a/b" (Some ["src/**"]) = Return false.
Proof. repeat split; vm_compute; reflexivity. Qed.

(** ** The keyword matcher *)

Ltac each_char c :=
  destruct c as [[] [] [] [] [] [] [] []]; vm_compute;
  try reflexivity; try congruence; auto.

(** On a lower-cased code unit, lower-casing undoes Canonicalize: two
    lower-cased code units with one canonical form are equal. *)
Lemma lower_canonical (c : ascii) :
  Text.lower_char (Text.canonical (Text.lower_char c)) = Text.lower_char c.
Proof. each_char c. Qed.

Lemma lower_is_word (c : ascii) :
  Text.is_word (Text.lower_char c) = Text.is_word c.
Proof. each_char c. Qed.

Lemma lower_is_syntax (c : ascii) :
  RegExp.is_syntax_char (Text.lower_char c) = RegExp.is_syntax_char c.
Proof. each_char c. Qed.

Lemma plain_char_token (c : ascii) :
  RegExp.is_syntax_char c = false ->
  (c =? "\")%char = false /\ (c =? "[")%char = false
  /\ RegExp.plain_token c = RegExp.KAtom (RegExp.AChar c).
Proof. each_char c. Qed.

Lemma chars_text (l : list ascii) : chars (text l) = l.
Proof. apply list_ascii_of_string_of_list_ascii. Qed.

Lemma chars_append (a b : string) : chars (a ++ b) = chars a ++ chars b.
Proof.
  induction a as [|c a IH]; simpl; [reflexivity|].
  unfold chars in *. simpl. rewrite IH. reflexivity.
Qed.

Lemma chars_toLowerCase (s : string) :
  chars (toLowerCase s) = Text.lower (chars s).
Proof. unfold toLowerCase. apply chars_text. Qed.

Lemma lex_plain (l rest : list ascii) :
  forallb (fun c => negb (RegExp.is_syntax_char c)) l = true ->
  RegExp.lex (l ++ rest)
  = map (fun c => RegExp.KAtom (RegExp.AChar c)) l ++ RegExp.lex rest.
Proof.
  induction l as [|c l IH]; intros H; [reflexivity|].
  simpl in H. apply andb_true_iff in H. destruct H as [Hc Hl].
  apply negb_true_iff in Hc.
  destruct (plain_char_token c Hc) as (H1 & H2 & H3).
  cbn [app RegExp.lex map]. rewrite H1, H2, H3, (IH Hl). reflexivity.
Qed.

Lemma parse_literal (l : list ascii) :
  forall (a : RegExp.assertion) (cur : list RegExp.term)
         (done : list RegExp.alternative),
    RegExp.parse
      (map (fun c => RegExp.KAtom (RegExp.AChar c)) l ++ [RegExp.KAssert a])
      cur done
    = RegExp.Regex
        (rev (rev (RegExp.TAssert a :: rev (Keyword.literal l) ++ cur)
                :: done)).
Proof.
  induction l as [|c l IH]; intros a cur done; [reflexivity|].
  cbn [map app RegExp.parse].
  destruct l as [|d l].
  - reflexivity.
  - cbn [map app RegExp.quantifier].
    change (RegExp.KAtom (RegExp.AChar d)
              :: map (fun c0 => RegExp.KAtom (RegExp.AChar c0)) l
              ++ [RegExp.KAssert a])
      with (map (fun c0 => RegExp.KAtom (RegExp.AChar c0)) (d :: l)
              ++ [RegExp.KAssert a]).
    rewrite IH. cbn [Keyword.literal map rev].
    rewrite <- !app_assoc. reflexivity.
Qed.

(** The expression built for a plain keyword. *)
Lemma compile_keyword (kw : list ascii) :
  forallb (fun c => negb (RegExp.is_syntax_char c)) kw = true ->
  RegExp.compile (chars "\b" ++ kw ++ chars "\b")
  = RegExp.Regex
      [RegExp.TAssert RegExp.WordB
         :: Keyword.literal kw ++ [RegExp.TAssert RegExp.WordB]].
Proof.
  intros H. unfold RegExp.compile.
  change (chars "\b" ++ kw ++ chars "\b")
    with ("\"%char :: "b"%char :: kw ++ ["\"; "b"]%char).
  cbn [RegExp.lex]. change (("\" =? "\")%char) with true. cbv iota.
  rewrite (lex_plain kw _ H).
  change (RegExp.lex ["\"; "b"]%char) with [RegExp.KAssert RegExp.WordB].
  change (RegExp.escape_token "b") with (RegExp.KAssert RegExp.WordB).
  cbn [RegExp.parse]. rewrite parse_literal.
  cbn [rev app]. rewrite rev_app_distr, rev_involutive. reflexivity.
Qed.

Lemma lastOf_app (prev : option ascii) (a b : list ascii) :
  Keyword.lastOf prev (a ++ b) = Keyword.lastOf (Keyword.lastOf prev a) b.
Proof. unfold Keyword.lastOf. apply fold_left_app. Qed.

Lemma match_literal (l : list ascii) (k : RegExp.alternative) :
  forall (prev : option ascii) (s : list ascii),
    RegExp.match_here true (Keyword.literal l ++ k) prev s = true
    <-> exists mid post,
        s = mid ++ post
        /\ Forall2 (fun x c => RegExp.same_char true x c = true) l mid
        /\ RegExp.match_here true k (Keyword.lastOf prev mid) post = true.
Proof.
  induction l as [|x l IH]; intros prev s.
  - cbn [Keyword.literal map app]. split.
    + intros H. exists [], s. repeat split; [constructor | exact H].
    + intros (mid & post & -> & HF & Hk). inversion HF; subst. exact Hk.
  - cbn [Keyword.literal map app RegExp.match_here RegExp.atom_matches].
    fold (Keyword.literal l). unfold RegExp.one. split.
    + destruct s as [|c s']; [discriminate|].
      intros H. apply andb_true_iff in H. destruct H as [Hc Hrest].
      apply IH in Hrest. destruct Hrest as (mid & post & -> & HF & Hk).
      exists (c :: mid), post. repeat split; [constructor; assumption|].
      exact Hk.
    + intros (mid & post & -> & HF & Hk).
      inversion HF as [|x' c l' mid' Hc HF']; subst.
      cbn [app]. apply andb_true_iff. split; [exact Hc|].
      apply IH. exists mid', post. repeat split; assumption.
Qed.

Lemma search_spec (r : RegExp.regex) :
  forall (s : list ascii) (prev : option ascii),
    RegExp.search true r prev s = true
    <-> exists pre post,
        s = pre ++ post
        /\ RegExp.match_at true r (Keyword.lastOf prev pre) post = true.
Proof.
  induction s as [|c s IH]; intros prev; cbn [RegExp.search].
  - rewrite orb_false_r. split.
    + intros H. exists [], []. split; [reflexivity | exact H].
    + intros (pre & post & E & H). symmetry in E.
      apply app_eq_nil in E. destruct E as [-> ->]. exact H.
  - rewrite orb_true_iff, IH. split.
    + intros [H | (pre & post & -> & H)].
      * exists [], (c :: s). split; [reflexivity | exact H].
      * exists (c :: pre), post. split; [reflexivity | exact H].
    + intros (pre & post & E & H). destruct pre as [|c' pre].
      * left. cbn in E. subst post. exact H.
      * right. cbn in E. injection E as <- ->.
        exists pre, post. split; [reflexivity | exact H].
Qed.

(** The expression of a keyword finds the occurrences between two word
    boundaries. *)
Lemma search_keyword (kw s : list ascii) :
  RegExp.search true
    [RegExp.TAssert RegExp.WordB
       :: Keyword.literal kw ++ [RegExp.TAssert RegExp.WordB]] None s = true
  <-> exists pre mid post,
      s = pre ++ mid ++ post
      /\ Forall2 (fun x c => RegExp.same_char true x c = true) kw mid
      /\ Keyword.boundary pre (mid ++ post) = true
      /\ Keyword.boundary (pre ++ mid) post = true.
Proof.
  rewrite search_spec. unfold RegExp.match_at. cbn [existsb RegExp.match_here].
  split.
  - intros (pre & rest & -> & H).
    rewrite orb_false_r in H. apply andb_true_iff in H.
    destruct H as [Hb Hm]. apply match_literal in Hm.
    destruct Hm as (mid & post & -> & HF & Hk).
    cbn [RegExp.match_here] in Hk. rewrite andb_true_r in Hk.
    exists pre, mid, post. repeat split; try assumption.
    unfold Keyword.boundary. rewrite lastOf_app. exact Hk.
  - intros (pre & mid & post & -> & HF & Hb1 & Hb2).
    exists pre, (mid ++ post). split; [reflexivity|].
    rewrite orb_false_r. apply andb_true_iff. split; [exact Hb1|].
    apply match_literal. exists mid, post. repeat split; [exact HF|].
    cbn [RegExp.match_here]. rewrite andb_true_r.
    unfold Keyword.boundary in Hb2. rewrite lastOf_app in Hb2. exact Hb2.
Qed.

Lemma same_lowered (a b : list ascii) :
  Forall2 (fun x c => RegExp.same_char true x c = true)
          (Text.lower a) (Text.lower b)
  <-> Text.lower b = Text.lower a.
Proof.
  revert b. induction a as [|x a IH]; intros b.
  - split.
    + intros H. inversion H as [E|]. destruct b; [reflexivity | discriminate].
    + destruct b; [constructor | discriminate].
  - destruct b as [|y b]; cbn [Text.lower map].
    + split; [intros H; inversion H | discriminate].
    + split.
      * intros H. inversion H as [|? ? ? ? Hc HF]; subst.
        apply IH in HF. unfold Text.lower in HF. rewrite HF. f_equal.
        unfold RegExp.same_char in Hc. apply Ascii.eqb_eq in Hc.
        rewrite <- (lower_canonical y), <- (lower_canonical x), Hc.
        reflexivity.
      * intros E. injection E as Ec Er. constructor.
        -- unfold RegExp.same_char. rewrite Ec. apply Ascii.eqb_refl.
        -- apply IH. exact Er.
Qed.

Lemma lastOf_lower (l : list ascii) (prev : option ascii) :
  RegExp.word_before (Keyword.lastOf (option_map Text.lower_char prev)
                                     (Text.lower l))
  = RegExp.word_before (Keyword.lastOf prev l).
Proof.
  revert prev. induction l as [|c l IH]; intros prev.
  - destruct prev; simpl; [apply lower_is_word | reflexivity].
  - apply (IH (Some c)).
Qed.

Lemma boundary_lower (pre post : list ascii) :
  Keyword.boundary (Text.lower pre) (Text.lower post)
  = Keyword.boundary pre post.
Proof.
  unfold Keyword.boundary.
  pose proof (lastOf_lower pre None) as H. cbn [option_map] in H.
  rewrite H. f_equal.
  destruct post; simpl; [reflexivity | apply lower_is_word].
Qed.

Lemma plain_lower (l : list ascii) :
  forallb (fun c => negb (RegExp.is_syntax_char c)) (Text.lower l)
  = forallb (fun c => negb (RegExp.is_syntax_char c)) l.
Proof.
  induction l as [|c l IH]; simpl; [reflexivity|].
  rewrite lower_is_syntax, IH. reflexivity.
Qed.

(** One keyword of [containsKeywords] against the lower-cased text. *)
Lemma keyword_test (kw subject : string) :
  Keyword.plain kw = true ->
  exists b,
    RegExp.test true ("\b" ++ toLowerCase kw ++ "\b") (toLowerCase subject)
    = Return b
    /\ (b = true <-> Keyword.occursAsWord kw subject).
Proof.
  intros Hp. unfold RegExp.test.
  rewrite !chars_append, !chars_toLowerCase.
  rewrite compile_keyword by (rewrite plain_lower; exact Hp).
  eexists. split; [reflexivity|].
  rewrite search_keyword. unfold Keyword.occursAsWord, Text.lower. split.
  - intros (pre & mid & post & E & HF & Hb1 & Hb2).
    apply map_eq_app in E. destruct E as (pre0 & rest0 & E0 & <- & E).
    apply map_eq_app in E. destruct E as (mid0 & post0 & -> & <- & <-).
    exists pre0, mid0, post0. split; [exact E0|].
    split; [apply same_lowered; exact HF|].
    rewrite <- map_app in Hb1. rewrite <- map_app in Hb2.
    fold (Text.lower pre0) (Text.lower (mid0 ++ post0)) in Hb1.
    fold (Text.lower (pre0 ++ mid0)) (Text.lower post0) in Hb2.
    rewrite boundary_lower in Hb1, Hb2. split; assumption.
  - intros (pre & mid & post & E & HF & Hb1 & Hb2).
    exists (Text.lower pre), (Text.lower mid), (Text.lower post).
    split; [rewrite E; unfold Text.lower; rewrite !map_app; reflexivity|].
    split; [apply same_lowered; exact HF|].
    unfold Text.lower. rewrite <- !map_app.
    fold (Text.lower pre) (Text.lower (mid ++ post))
         (Text.lower (pre ++ mid)) (Text.lower post).
    rewrite !boundary_lower. split; assumption.
Qed.

Lemma some_returns {A : Type} (f : A -> outcome bool) (l : list A) :
  (forall x, In x l -> returns (f x)) ->
  some f l = Return (existsb (fun x => hit (f x)) l).
Proof.
  induction l as [|x l IH]; intros H; [reflexivity|].
  destruct (H x (or_introl eq_refl)) as [b Hb].
  cbn [some existsb]. rewrite Hb. cbn [bind hit].
  destruct b; [reflexivity|].
  apply IH. intros y Hy. apply H. right. exact Hy.
Qed.

Lemma starts_with_spec (p s : list ascii) :
  Text.starts_with p s = true <-> exists post, s = p ++ post.
Proof.
  revert s. induction p as [|a p IH]; intros s.
  - split; [intros _; exists s; reflexivity | reflexivity].
  - destruct s as [|b s]; cbn [Text.starts_with].
    + split; [discriminate | intros [post E]; discriminate].
    + rewrite andb_true_iff, Ascii.eqb_eq, IH. split.
      * intros [-> [post ->]]. exists post. reflexivity.
      * intros [post E]. injection E as -> ->. split; [reflexivity|].
        exists post. reflexivity.
Qed.

Lemma includes_spec (s needle : list ascii) :
  Text.includes s needle = true <-> exists pre post, s = pre ++ needle ++ post.
Proof.
  induction s as [|c s IH]; cbn [Text.includes].
  - rewrite orb_false_r, starts_with_spec. split.
    + intros [post E]. exists [], post. exact E.
    + intros (pre & post & E). destruct pre as [|x pre]; [|discriminate].
      exists post. exact E.
  - rewrite orb_true_iff, starts_with_spec, IH. split.
    + intros [[post E] | (pre & post & ->)].
      * exists [], post. exact E.
      * exists (c :: pre), post. reflexivity.
    + intros (pre & post & E). destruct pre as [|x pre].
      * left. exists post. exact E.
      * right. injection E as -> ->. exists pre, post. reflexivity.
Qed.

Lemma includes_lowered (subject kw : string) :
  includes (toLowerCase subject) (toLowerCase kw) = true
  <-> Keyword.occurs kw subject.
Proof.
  unfold includes, Keyword.occurs.
  rewrite !chars_toLowerCase, includes_spec. unfold Text.lower. split.
  - intros (pre & post & E).
    apply map_eq_app in E. destruct E as (pre0 & rest0 & E0 & _ & E).
    apply map_eq_app in E. destruct E as (mid0 & post0 & -> & Em & _).
    exists pre0, mid0, post0. split; assumption.
  - intros (pre & mid & post & E & Em).
    exists (map Text.lower_char pre), (map Text.lower_char post).
    rewrite E, !map_app. unfold Text.lower in Em. rewrite Em. reflexivity.
Qed.

(** C3, as the code has it.  For keywords made of characters that are not
    syntax in a regular expression, [containsKeywords] answers [true] exactly
    when some keyword of the list occurs in the text, letter case ignored,
    with a word boundary on each side: "api" is found in "Call the API" and
    not in "rapidly"; an absent or empty list never matches and one hit is
    enough.  The keyword test of the TypeScript hook is containment, letter
    case ignored, with no word boundary: there "api" is found in
    "rapidly". *)
Theorem keyword_matcher :
  (forall (subject : string) (ks : list string),
      Forall (fun kw => Keyword.plain kw = true) ks ->
      exists b,
        JS.containsKeywords subject (Some ks) = Return b
        /\ (b = true
            <-> exists kw, In kw ks /\ Keyword.occursAsWord kw subject))
  /\ (forall subject : string,
         JS.containsKeywords subject None = Return false
         /\ JS.containsKeywords subject (Some []) = Return false)
  /\ JS.containsKeywords "Call the API" (Some ["api"]) = Return true
  /\ JS.containsKeywords "rapidly" (Some ["api"]) = Return false
  /\ (forall (prompt : string) (ks : list string),
         TS.keywordMatch (toLowerCase prompt) ks = true
         <-> exists kw, In kw ks /\ Keyword.occurs kw prompt)
  /\ TS.keywordMatch (toLowerCase "rapidly") ["api"] = true.
Proof.
  split; [|split; [|split; [|split; [|split]]]];
    try (vm_compute; reflexivity).
  - intros subject ks Hplain. rewrite Forall_forall in Hplain.
    set (f := fun keyword =>
                RegExp.test true ("\b" ++ toLowerCase keyword ++ "\b")
                            (toLowerCase subject)).
    assert (Hret : forall kw, In kw ks -> returns (f kw)).
    { intros kw Hin. destruct (keyword_test kw subject (Hplain kw Hin))
        as (b & Hb & _). exists b. exact Hb. }
    exists (existsb (fun kw => hit (f kw)) ks). split.
    + destruct ks as [|k0 ks']; [reflexivity|].
      unfold JS.containsKeywords. fold f. apply some_returns. exact Hret.
    + rewrite existsb_exists. split.
      * intros (kw & Hin & Hh). exists kw. split; [exact Hin|].
        destruct (keyword_test kw subject (Hplain kw Hin)) as (b & Hb & Hiff).
        apply Hiff. apply hit_true in Hh. unfold f in Hh.
        rewrite Hb in Hh. injection Hh as ->. reflexivity.
      * intros (kw & Hin & Hocc). exists kw. split; [exact Hin|].
        destruct (keyword_test kw subject (Hplain kw Hin)) as (b & Hb & Hiff).
        unfold f. rewrite Hb. apply Hiff in Hocc. rewrite Hocc. reflexivity.
  - intros subject. split; reflexivity.
  - intros prompt ks. unfold TS.keywordMatch. rewrite existsb_exists.
    split; intros (kw & Hin & H); exists kw; (split; [exact Hin|]);
      apply includes_lowered; exact H.
Qed.

Lemma keyword_matcher_witness :
  exists b,
    JS.containsKeywords "Refactor the REST api" (Some ["graphql"; "rest api"])
    = Return b
    /\ (b = true
        <-> exists kw,
            In kw ["graphql"; "rest api"]
            /\ Keyword.occursAsWord kw "Refactor the REST api").
Proof.
  apply (proj1 keyword_matcher). repeat constructor.
Defined.

(** C3 as it is stated fails both ways.  A keyword with a dot is read as a
    regular expression, so [containsKeywords] answers [true] for a text that
    does not contain it; and the keyword test of the TypeScript hook finds
    "api" inside "rapidly", where it is not a whole word. *)
Lemma keyword_matcher_counterexample :
  (JS.containsKeywords "api" (Some ["a.i"]) = Return true
   /\ ~ Keyword.occursAsWord "a.i" "api")
  /\ (TS.keywordMatch (toLowerCase "rapidly") ["api"] = true
      /\ ~ Keyword.occursAsWord "api" "rapidly").
Proof.
  split; split; try (vm_compute; reflexivity).
  - intros (pre & mid & post & E & Em & _).
    assert (Hlen : List.length mid = 3).
    { rewrite <- (length_map Text.lower_char). fold (Text.lower mid).
      rewrite Em. reflexivity. }
    apply (f_equal (@List.length ascii)) in E as El.
    rewrite !length_app, Hlen in El. cbn in El.
    destruct pre; [|cbn in El; lia]. destruct post; [|cbn in El; lia].
    cbn [app] in E. rewrite app_nil_r in E. subst mid. discriminate Em.
  - intros Hocc.
    destruct (keyword_test "api" "rapidly" eq_refl) as (b & Hb & Hiff).
    apply Hiff in Hocc. subst b. vm_compute in Hb. discriminate Hb.
Qed.

(** ** Scenarios *)

Example regex_fragment :
  RegExp.test true "\bapi\b" "use the api now" = Return true
  /\ RegExp.test true "\b*\b" "x" = Raise (SyntaxError "\b*\b")
  /\ RegExp.test false "^[^/]*\.ts$" "index.ts" = Return true
  /\ RegExp.test false "^[^/]*\.ts$" "src/index.ts" = Return false
  /\ RegExp.test true "\b(api)\b" "api" = Unmodelled.
Proof. repeat split; reflexivity. Qed.

Example glob_single_star_and_dot :
  JS.matchesFilePattern "index.ts" (Some ["*.ts"]) = Return true
  /\ JS.matchesFilePattern "src/index.ts" (Some ["*.ts"]) = Return false
  /\ JS.matchesFilePattern "indexxts" (Some ["*.ts"]) = Return false
  /\ JS.matchesFilePattern "a.ts" (Some ["?.ts"]) = Return true
  /\ JS.matchesFilePattern "ab.ts" (Some ["?.ts"]) = Return false
  /\ JS.matchesFilePattern "lib/a.ts.bak" (Some ["lib/*.ts"]) = Return false.
Proof. repeat split; vm_compute; reflexivity. Qed.

Example scenario_keyword_suggestion :
  JS.main (Some (Sample.ask "Create a React component with MUI" []))
          (Sample.collection
             [Sample.rule "frontend-dev-guidelines" "suggest"
                          (Sample.onKeywords ["react"])])
  = Some (Run
            [trim
               ("💡 **Suggested Skills** (based on your prompt and context):"
                ++ nl ++ nl
                ++ "• **frontend-dev-guidelines** — "
                ++ "guidance for frontend-dev-guidelines" ++ nl
                ++ "  Match: keyword match" ++ nl
                ++ "  Use: `/skill frontend-dev-guidelines`")]
            [] 0).
Proof. vm_compute. reflexivity. Qed.

Example scenario_blocking_intent :
  exists analysis,
    snd (JS.analyzePrompt (Sample.collection [Sample.guardRule])
                          "Please delete the production database" [])
    = Return analysis
    /\ map JS.Suggestion.skillName (JS.blockingSkills analysis) = ["db-guard"]
    /\ map JS.Suggestion.reasons (JS.blockingSkills analysis)
       = [["intent match"]]
    /\ JS.suggestions analysis = [].
Proof. eexists. repeat split; vm_compute; reflexivity. Qed.

Example scenario_three_suggestions_shown :
  exists analysis,
    snd (JS.analyzePrompt
           (Sample.collection
              [Sample.apiRule "rest-design"; Sample.sqlRule;
               Sample.apiRule "api-docs"])
           "migrate the API: run the migration" ["a.sql"])
    = Return analysis
    /\ map (fun s => (JS.Suggestion.skillName s, JS.Suggestion.score s))
           (JS.shownSuggestions analysis)
       = [("sql-guidelines", 7); ("rest-design", 2); ("api-docs", 2)].
Proof. eexists. split; vm_compute; reflexivity. Qed.

(** ** Further properties of the JavaScript hook *)

(** X1. [matchesIntent] answers [true] exactly when one of the patterns
    occurs in the text as a substring, letter case ignored; an absent or
    empty pattern list never matches. *)
Theorem matchesIntent_is_containment :
  (forall subject : string,
      JS.matchesIntent subject None = false
      /\ JS.matchesIntent subject (Some []) = false)
  /\ (forall (subject : string) (ps : list string),
         JS.matchesIntent subject (Some ps) = true
         <-> exists p, In p ps /\ Keyword.occurs p subject).
Proof.
  split; [intros subject; split; reflexivity|].
  intros subject ps. destruct ps as [|p0 ps'].
  - split; [discriminate | intros (p & [] & _)].
  - unfold JS.matchesIntent. rewrite existsb_exists.
    split; intros (p & Hin & H); exists p; (split; [exact Hin|]);
      apply includes_lowered; exact H.
Qed.

(** X2. With every rule scored, the suggestions that [analyzePrompt] returns
    are in descending order of score, rules of equal score stay in
    declaration order, no suggestion is dropped, and the blocking bucket is
    left in declaration order. *)
Theorem suggestions_sorted_stable :
  forall (rulesFile : disk_file JS.SkillRules) (prompt : string)
         (contextFiles : list string),
    Forall (fun sk => returns (JS.scoreSkill prompt contextFiles sk))
           (Decision.rulesOf rulesFile) ->
    exists scored analysis,
      Forall2 (fun sk entry =>
                 fst entry = sk
                 /\ JS.scoreSkill prompt contextFiles sk = Return (snd entry))
              (Decision.rulesOf rulesFile) scored
      /\ snd (JS.analyzePrompt rulesFile prompt contextFiles) = Return analysis
      /\ Decision.descending (JS.suggestions analysis)
      /\ (forall n,
             filter (fun s => JS.Suggestion.score s =? n)
                    (JS.suggestions analysis)
             = filter (fun s => JS.Suggestion.score s =? n)
                      (Decision.bucket false scored))
      /\ List.length (JS.suggestions analysis)
         = List.length (Decision.bucket false scored)
      /\ JS.blockingSkills analysis = Decision.bucket true scored.
Proof.
  intros rulesFile prompt contextFiles Hall.
  destruct (scan_spec prompt contextFiles (Decision.rulesOf rulesFile)
              {| JS.suggestions := []; JS.blockingSkills := [] |} Hall)
    as (scored & HF & Hscan).
  exists scored.
  exists {| JS.suggestions := JS.sort (Decision.bucket false scored);
            JS.blockingSkills := Decision.bucket true scored |}.
  split; [exact HF|]. split.
  { unfold JS.analyzePrompt. unfold Decision.rulesOf in Hscan.
    destruct (JS.loadSkillRules rulesFile) as [rules log].
    cbn [fst snd] in *. rewrite Hscan. reflexivity. }
  cbn [JS.suggestions JS.blockingSkills].
  split; [apply sort_descending|].
  split; [intros n; apply sort_stable|].
  split; [apply Permutation_length, sort_perm | reflexivity].
Qed.

Lemma suggestions_sorted_stable_witness :
  exists analysis,
    snd (JS.analyzePrompt
           (Sample.collection
              [Sample.apiRule "rest-design"; Sample.sqlRule;
               Sample.apiRule "api-docs"])
           "migrate the API: run the migration" ["a.sql"])
    = Return analysis
    /\ Decision.descending (JS.suggestions analysis).
Proof.
  destruct (suggestions_sorted_stable
              (Sample.collection
                 [Sample.apiRule "rest-design"; Sample.sqlRule;
                  Sample.apiRule "api-docs"])
              "migrate the API: run the migration" ["a.sql"])
    as (scored & analysis & _ & Hrun & Hdesc & _).
  - repeat constructor; eexists; vm_compute; reflexivity.
  - exists analysis. split; [exact Hrun | exact Hdesc].
Defined.

Lemma scan_modelled (prompt : string) (contextFiles : list string) :
  forall (rules : list JS.Skill) (acc : JS.Analysis),
    (forall sk, In sk rules ->
                JS.scoreSkill prompt contextFiles sk <> Unmodelled) ->
    JS.scan prompt contextFiles rules acc <> Unmodelled.
Proof.
  induction rules as [|sk rules IH]; intros acc H; [discriminate|].
  cbn [JS.scan].
  destruct (JS.scoreSkill prompt contextFiles sk) as [st|e|] eqn:E;
    cbn [bind].
  - destruct (0 <? fst st); [destruct (String.eqb (JS.mode sk) "block")|];
      apply IH; intros sk' Hin; apply H; right; exact Hin.
  - discriminate.
  - exfalso. apply (H sk (or_introl eq_refl)). exact E.
Qed.

(** X3. The JavaScript hook never fails the caller: whatever the standard
    input and the rule file hold, as long as the regular expressions of the
    rules stay inside the modelled fragment, [main] ends with status 0 and
    prints at most one message. *)
Theorem js_hook_exits_zero :
  forall (stdin : option JS.HookInput) (rulesFile : disk_file JS.SkillRules),
    (forall input sk,
        stdin = Some input -> In sk (Decision.rulesOf rulesFile) ->
        JS.scoreSkill (JS.userPromptOf input) (JS.contextFilesOf input) sk
        <> Unmodelled) ->
    exists r,
      JS.main stdin rulesFile = Some r
      /\ exit_code r = 0%Z
      /\ List.length (stdout r) <= 1.
Proof.
  intros [input|] rulesFile H; [|eexists; repeat split; simpl; lia].
  unfold JS.main.
  destruct (String.eqb (JS.userPromptOf input) "");
    [eexists; repeat split; simpl; lia|].
  pose proof (scan_modelled (JS.userPromptOf input) (JS.contextFilesOf input)
                (Decision.rulesOf rulesFile)
                {| JS.suggestions := []; JS.blockingSkills := [] |}
                (fun sk Hin => H input sk eq_refl Hin)) as Hm.
  unfold JS.analyzePrompt. unfold Decision.rulesOf in Hm.
  destruct (JS.loadSkillRules rulesFile) as [rules log]. cbn [fst] in Hm.
  destruct (JS.scan _ _ _ _) as [found|e|]; cbn [bind].
  - destruct (JS.formatMessage _) as [m|];
      [destruct (String.eqb m "")|]; eexists; repeat split; simpl; lia.
  - eexists; repeat split; simpl; lia.
  - contradiction.
Qed.

Lemma js_hook_exits_zero_witness :
  exists r,
    JS.main (Some (Sample.ask "port this api to c++" ["a.sql"]))
            (Sample.collection [Sample.apiRule "rest-design"; Sample.cppRule])
    = Some r
    /\ exit_code r = 0%Z
    /\ List.length (stdout r) <= 1.
Proof.
  apply js_hook_exits_zero.
  intros input sk E Hin. injection E as <-.
  destruct Hin as [<-|[<-|[]]]; vm_compute; discriminate.
Defined.

(** X4. A rule whose scoring raises aborts the whole analysis: when the rules
    before it score normally and it raises, [analyzePrompt] raises the same
    exception, and [main] prints nothing, not even the blocking matches of
    the rules before it. *)
Theorem failing_rule_silences_all :
  forall (input : JS.HookInput) (before after : list JS.Skill)
         (bad : JS.Skill) (e : error),
    JS.userPromptOf input <> "" ->
    Forall (fun sk => returns (JS.scoreSkill (JS.userPromptOf input)
                                             (JS.contextFilesOf input) sk))
           before ->
    JS.scoreSkill (JS.userPromptOf input) (JS.contextFilesOf input) bad
    = Raise e ->
    snd (JS.analyzePrompt (Extra.holding (before ++ bad :: after))
                          (JS.userPromptOf input) (JS.contextFilesOf input))
    = Raise e
    /\ JS.main (Some input) (Extra.holding (before ++ bad :: after))
       = Some (Run [] [HookError e] 0).
Proof.
  intros input before after bad e Hp Hbefore Hbad.
  assert (Hscan : forall acc,
             JS.scan (JS.userPromptOf input) (JS.contextFilesOf input)
                     (before ++ bad :: after) acc = Raise e).
  { induction Hbefore as [|sk before [st Hst] _ IH]; intros acc.
    - cbn [app JS.scan]. rewrite Hbad. reflexivity.
    - cbn [app JS.scan]. rewrite Hst. cbn [bind].
      destruct (0 <? fst st); [destruct (String.eqb (JS.mode sk) "block")|];
        apply IH. }
  assert (Hrun : snd (JS.analyzePrompt (Extra.holding (before ++ bad :: after))
                        (JS.userPromptOf input) (JS.contextFilesOf input))
                 = Raise e).
  { unfold JS.analyzePrompt, Extra.holding. cbn. rewrite Hscan. reflexivity. }
  split; [exact Hrun|].
  apply String.eqb_neq in Hp. unfold JS.main. rewrite Hp.
  unfold JS.analyzePrompt, Extra.holding in *. cbn in *.
  rewrite Hscan. reflexivity.
Qed.

Lemma failing_rule_silences_all_witness :
  JS.main (Some (Sample.ask "delete the production c++ service" []))
          (Extra.holding ([Sample.guardRule] ++ Sample.cppRule :: []))
  = Some (Run [] [HookError (SyntaxError "\bc++\b")] 0).
Proof.
  refine (proj2 (failing_rule_silences_all
                   (Sample.ask "delete the production c++ service" [])
                   [Sample.guardRule] [] Sample.cppRule
                   (SyntaxError "\bc++\b") _ _ _)).
  - discriminate.
  - repeat constructor. eexists. vm_compute. reflexivity.
  - vm_compute. reflexivity.
Defined.

Lemma dormant_scores_nothing (prompt : string) (contextFiles : list string)
      (skill : JS.Skill) :
  Extra.dormant skill = true ->
  JS.scoreSkill prompt contextFiles skill = Return (0, []).
Proof.
  unfold Extra.dormant. intros H.
  apply andb_true_iff in H. destruct H as [H Hf].
  apply andb_true_iff in H. destruct H as [Hk Hi].
  unfold JS.scoreSkill, JS.keywordCheck, JS.intentCheck, JS.fileCheck.
  destruct (JS.trigger JS.keywords skill) as [[|k ks]|]; try discriminate;
    destruct (JS.trigger JS.intentPatterns skill) as [[|p ps]|];
    try discriminate;
    destruct (JS.trigger JS.filePatterns skill) as [[|f fs]|];
    try discriminate; cbn [bind JS.containsKeywords JS.matchesIntent];
    try reflexivity;
    (destruct contextFiles as [|c0 cs]; [reflexivity|];
     rewrite filterM_none by (intros x _; reflexivity); reflexivity).
Qed.

(** X5. Rules without triggers are dormant: when for every rule of the
    collection the keyword, intent and file pattern lists are each absent or
    empty, no prompt and no context file make a rule match; the decision is
    empty and [main] prints and logs nothing. *)
Theorem dormant_rules_never_match :
  forall (rules : list JS.Skill) (input : JS.HookInput),
    Forall (fun sk => Extra.dormant sk = true) rules ->
    JS.analyzePrompt (Extra.holding rules) (JS.userPromptOf input)
                     (JS.contextFilesOf input)
    = ([], Return emptyAnalysis)
    /\ JS.main (Some input) (Extra.holding rules) = Some (Run [] [] 0).
Proof.
  intros rules input Hall.
  assert (Hscan : forall acc,
             JS.scan (JS.userPromptOf input) (JS.contextFilesOf input)
                     rules acc = Return acc).
  { induction Hall as [|sk rules Hsk _ IH]; intros acc; [reflexivity|].
    cbn [JS.scan]. rewrite (dormant_scores_nothing _ _ _ Hsk). cbn.
    apply IH. }
  assert (Hrun : JS.analyzePrompt (Extra.holding rules)
                   (JS.userPromptOf input) (JS.contextFilesOf input)
                 = ([], Return emptyAnalysis)).
  { unfold JS.analyzePrompt, Extra.holding. cbn. rewrite Hscan. reflexivity. }
  split; [exact Hrun|].
  unfold JS.main. destruct (String.eqb (JS.userPromptOf input) "");
    [reflexivity|].
  rewrite Hrun. reflexivity.
Qed.

Lemma dormant_rules_never_match_witness :
  JS.main (Some (Sample.ask "delete the production api" ["a.sql"]))
          (Extra.holding
             [Sample.rule "empty-lists" "block"
                {| JS.keywords := Some []; JS.intentPatterns := Some [];
                   JS.filePatterns := None;
                   JS.excludePatterns := Some ["*"] |};
              {| JS.name := "no-triggers"; JS.description := "";
                 JS.mode := "block"; JS.priority := "critical";
                 JS.triggers := None |}])
  = Some (Run [] [] 0).
Proof.
  apply (dormant_rules_never_match
           [Sample.rule "empty-lists" "block"
              {| JS.keywords := Some []; JS.intentPatterns := Some [];
                 JS.filePatterns := None;
                 JS.excludePatterns := Some ["*"] |};
            {| JS.name := "no-triggers"; JS.description := "";
               JS.mode := "block"; JS.priority := "critical";
               JS.triggers := None |}]
           (Sample.ask "delete the production api" ["a.sql"])).
  repeat constructor.
Defined.

Lemma fileReason_not_marker (n : nat) :
  JS.fileReason n <> "excluded by pattern".
Proof. unfold JS.fileReason. simpl. discriminate. Qed.

Lemma keywordCheck_cases (prompt : string) (skill : JS.Skill) (st st' : JS.tally) :
  JS.keywordCheck prompt skill st = Return st' ->
  st' = st \/ st' = (fst st + 2, snd st ++ ["keyword match"]).
Proof.
  unfold JS.keywordCheck.
  destruct (JS.trigger JS.keywords skill) as [ks|].
  - destruct (JS.containsKeywords prompt (Some ks)) as [[|]| |]; cbn [bind];
      intros H; try discriminate; injection H as <-; auto.
  - intros H. injection H as <-. auto.
Qed.

Lemma intentCheck_cases (prompt : string) (skill : JS.Skill) (st : JS.tally) :
  JS.intentCheck prompt skill st = st
  \/ JS.intentCheck prompt skill st = (fst st + 3, snd st ++ ["intent match"]).
Proof.
  unfold JS.intentCheck.
  destruct (JS.trigger JS.intentPatterns skill) as [ps|]; auto.
  destruct (JS.matchesIntent prompt (Some ps)); auto.
Qed.

Lemma fileCheck_cases (contextFiles : list string) (skill : JS.Skill)
      (st st' : JS.tally) :
  JS.fileCheck contextFiles skill st = Return st' ->
  st' = st
  \/ st' = (0, ["excluded by pattern"])
  \/ exists n, st' = (fst st + 2, snd st ++ [JS.fileReason n]).
Proof.
  unfold JS.fileCheck.
  destruct (JS.trigger JS.filePatterns skill) as [fps|];
    [|intros H; injection H as <-; auto].
  destruct contextFiles as [|c0 cs]; [intros H; injection H as <-; auto|].
  destruct (filterM _ (c0 :: cs)) as [matching| |]; cbn [bind];
    try discriminate.
  destruct (0 <? List.length matching);
    [|intros H; injection H as <-; auto].
  destruct (JS.trigger JS.excludePatterns skill) as [eps|].
  - destruct (filterM _ matching) as [excluded| |]; cbn [bind];
      try discriminate.
    destruct (List.length excluded =? List.length matching);
      intros H; injection H as <-; eauto.
  - intros H. injection H as <-. eauto.
Qed.

Lemma scoreSkill_sound (prompt : string) (contextFiles : list string)
      (skill : JS.Skill) (st : JS.tally) :
  JS.scoreSkill prompt contextFiles skill = Return st ->
  0 < fst st -> Extra.soundTally st.
Proof.
  unfold JS.scoreSkill.
  destruct (JS.keywordCheck prompt skill (0, [])) as [st1| |] eqn:Ek;
    cbn [bind]; try discriminate.
  intros Hf Hpos.
  pose proof (fileReason_not_marker) as Hne.
  apply keywordCheck_cases in Ek. apply fileCheck_cases in Hf.
  destruct (intentCheck_cases prompt skill st1) as [Ei|Ei]; rewrite Ei in Hf;
    destruct Ek as [-> | ->];
    destruct Hf as [-> | [-> | [n ->]]]; cbn in Hpos |- *;
    try lia; unfold Extra.soundTally; cbn;
    (split; [lia|]; split; [discriminate|]; split; [lia|]);
    intros Hin; repeat (destruct Hin as [Hin|Hin]; try discriminate Hin);
    try contradiction; apply (Hne n); exact Hin.
Qed.

Lemma scan_sound (prompt : string) (contextFiles : list string) :
  forall (rules : list JS.Skill) (acc found : JS.Analysis),
    JS.scan prompt contextFiles rules acc = Return found ->
    Forall Extra.sound (JS.suggestions acc ++ JS.blockingSkills acc) ->
    Forall Extra.sound (JS.suggestions found ++ JS.blockingSkills found).
Proof.
  induction rules as [|sk rules IH]; intros acc found Hscan Hacc.
  - injection Hscan as <-. exact Hacc.
  - cbn [JS.scan] in Hscan.
    destruct (JS.scoreSkill prompt contextFiles sk) as [st| |] eqn:Est;
      cbn [bind] in Hscan; try discriminate.
    destruct (0 <? fst st) eqn:Epos; [|eapply IH; eassumption].
    apply Nat.ltb_lt in Epos.
    pose proof (scoreSkill_sound _ _ _ _ Est Epos) as Hs.
    assert (Hnew : Extra.sound (JS.suggestionOf sk st)) by exact Hs.
    apply Forall_app in Hacc. destruct Hacc as [Ha Hb].
    destruct (String.eqb (JS.mode sk) "block");
      (eapply IH; [exact Hscan|]); cbn [JS.suggestions JS.blockingSkills];
      repeat (apply Forall_app; split); auto.
Qed.

(** X6. Every entry of a decision, blocking or suggested, has a score
    between 2 and 7, and between one and three reasons, none of which is the
    marker "excluded by pattern": an excluded rule has score 0 and is dropped
    before its marker can be shown. *)
Theorem decision_entries_are_sound :
  forall (rulesFile : disk_file JS.SkillRules) (prompt : string)
         (contextFiles : list string) (analysis : JS.Analysis),
    snd (JS.analyzePrompt rulesFile prompt contextFiles) = Return analysis ->
    forall s,
      In s (JS.suggestions analysis) \/ In s (JS.blockingSkills analysis) ->
      2 <= JS.Suggestion.score s <= 7
      /\ JS.Suggestion.reasons s <> []
      /\ List.length (JS.Suggestion.reasons s) <= 3
      /\ ~ In "excluded by pattern" (JS.Suggestion.reasons s).
Proof.
  intros rulesFile prompt contextFiles analysis Hrun s Hin.
  unfold JS.analyzePrompt in Hrun.
  destruct (JS.loadSkillRules rulesFile) as [rules log]. cbn [snd] in Hrun.
  destruct (JS.scan _ _ _ _) as [found| |] eqn:Hscan; cbn [bind] in Hrun;
    try discriminate.
  injection Hrun as <-. cbn [JS.suggestions JS.blockingSkills] in Hin.
  pose proof (scan_sound _ _ _ _ _ Hscan (Forall_nil _)) as Hall.
  rewrite Forall_forall in Hall. apply Hall. apply in_app_iff.
  destruct Hin as [Hin|Hin]; [left | right; exact Hin].
  apply (Permutation_in _ (sort_perm _)). exact Hin.
Qed.

Lemma decision_entries_are_sound_witness :
  2 <= JS.Suggestion.score
         (JS.suggestionOf Sample.guardRule (3, ["intent match"])) <= 7
  /\ JS.Suggestion.reasons
       (JS.suggestionOf Sample.guardRule (3, ["intent match"])) <> []
  /\ List.length
       (JS.Suggestion.reasons
          (JS.suggestionOf Sample.guardRule (3, ["intent match"]))) <= 3
  /\ ~ In "excluded by pattern"
          (JS.Suggestion.reasons
             (JS.suggestionOf Sample.guardRule (3, ["intent match"]))).
Proof.
  apply (decision_entries_are_sound
           (Sample.collection [Sample.guardRule; Sample.sqlRule])
           "delete the production data" ["db_test.sql"]
           {| JS.suggestions := [];
              JS.blockingSkills :=
                [JS.suggestionOf Sample.guardRule (3, ["intent match"])] |}).
  - vm_compute. reflexivity.
  - right. left. reflexivity.
Defined.

(** ** Further properties of the TypeScript hook *)

(** X7. The choice of the rule file.  When the project file exists the
    global file is never read; when [CLAUDE_PROJECT_DIR] is set but the
    project file is missing the run is the one on the global file alone; and
    a project file that exists but does not parse is not replaced by the
    global file: the run ends with status 1 whatever the global file holds. *)
Theorem ts_rule_file_choice :
  (forall (stdin : option TS.HookInput) (f g g' : disk_file TS.SkillRules),
      TS.exists_ f = true ->
      TS.main stdin {| TS.projectRules := Some f; TS.globalRules := g |}
      = TS.main stdin {| TS.projectRules := Some f; TS.globalRules := g' |})
  /\ (forall (stdin : option TS.HookInput) (g : disk_file TS.SkillRules),
         TS.main stdin {| TS.projectRules := Some Missing; TS.globalRules := g |}
         = TS.main stdin {| TS.projectRules := None; TS.globalRules := g |})
  /\ (forall (prompt : string) (g : disk_file TS.SkillRules),
         TS.main (Some {| TS.prompt := Some prompt |})
                 {| TS.projectRules := Some Malformed; TS.globalRules := g |}
         = Some (Run [] [ErrorInHook JSONError] 1)).
Proof.
  split; [|split].
  - intros stdin f g g' Hf. unfold TS.main, TS.body, TS.rulesFile.
    cbn [TS.projectRules TS.globalRules]. rewrite Hf. reflexivity.
  - intros stdin g. reflexivity.
  - intros prompt g. reflexivity.
Qed.

Lemma ts_rule_file_choice_witness :
  TS.main (Some (Sample.tsAsk "add an api route"))
          {| TS.projectRules :=
               Some (Sample.tsRules
                       [("api", Sample.tsRule "block" (Some ["api"]) None)]);
             TS.globalRules := Malformed |}
  = TS.main (Some (Sample.tsAsk "add an api route"))
            {| TS.projectRules :=
                 Some (Sample.tsRules
                         [("api", Sample.tsRule "block" (Some ["api"]) None)]);
               TS.globalRules := Missing |}.
Proof.
  apply (proj1 ts_rule_file_choice). reflexivity.
Defined.

Lemma checkSkill_config (prompt : string) (n : string) (cfg : TS.SkillRule)
      (l : list TS.MatchedSkill) :
  TS.checkSkill prompt (n, cfg) = Return l ->
  forall m, In m l -> TS.config m = cfg.
Proof.
  unfold TS.checkSkill.
  destruct (TS.promptTriggers cfg) as [t|];
    [|intros H; injection H as <-; intros m []].
  assert (Hint : forall l',
             match TS.intentPatterns t with
             | Some ps =>
                 hit_ <- TS.intentMatch prompt ps ;;
                 Return (if hit_ : bool
                         then [{| TS.name := n; TS.kind := TS.intent;
                                  TS.config := cfg |}]
                         else [])
             | None => Return []
             end = Return l' ->
             forall m, In m l' -> TS.config m = cfg).
  { intros l' H. destruct (TS.intentPatterns t) as [ps|].
    - destruct (TS.intentMatch prompt ps) as [[|]| |]; cbn [bind] in H;
        try discriminate; injection H as <-.
      + intros m [<-|[]]. reflexivity.
      + intros m [].
    - injection H as <-. intros m []. }
  destruct (TS.keywords t) as [ks|]; [|apply Hint].
  destruct (TS.keywordMatch prompt ks); [|apply Hint].
  intros H. injection H as <-. intros m [<-|[]]. reflexivity.
Qed.

Lemma matchSkills_configs (prompt : string) :
  forall (entries : list (string * TS.SkillRule)) (matched : list TS.MatchedSkill),
    TS.matchSkills prompt entries = Return matched ->
    forall m, In m matched ->
              exists n, In (n, TS.config m) entries /\ TS.name m = n.
Proof.
  induction entries as [|[n cfg] entries IH]; intros matched H m Hin.
  - injection H as <-. destruct Hin.
  - cbn [TS.matchSkills] in H.
    destruct (TS.checkSkill prompt (n, cfg)) as [l| |] eqn:El; cbn [bind] in H;
      try discriminate.
    destruct (TS.matchSkills prompt entries) as [later| |] eqn:Em;
      cbn [bind] in H; try discriminate.
    injection H as <-. apply in_app_iff in Hin. destruct Hin as [Hin|Hin].
    + exists n. split.
      * left. rewrite (checkSkill_config _ _ _ _ El m Hin). reflexivity.
      * apply (proj2 (checkSkill_at_most_one _ _ _ El) m Hin).
    + destruct (IH later eq_refl m Hin) as (n' & Hn' & Hname).
      exists n'. split; [right; exact Hn' | exact Hname].
Qed.

(** X8. Only blocking rules reach the standard output.  When the chosen rule
    file is read and no rule in it has the enforcement "block", the hook
    prints nothing, whatever the prompt matches: the matches go to the error
    stream at most, and the status is 0. *)
Theorem ts_silent_without_block_rules :
  forall (prompt : string) (env : TS.Env) (rules : TS.SkillRules)
         (matched : list TS.MatchedSkill),
    TS.readRules (TS.rulesFile env) = Return rules ->
    Forall (fun entry => TS.enforcement (snd entry) <> "block")
           (TS.skills rules) ->
    TS.matchSkills (toLowerCase prompt) (TS.skills rules) = Return matched ->
    TS.main (Some {| TS.prompt := Some prompt |}) env
    = Some (Run []
                (match matched with
                 | [] => []
                 | _ :: _ =>
                     [DebugSuggested (Text.join ", " (map TS.name matched))]
                 end)
                0).
Proof.
  intros prompt env rules matched Hread Hnone Hm.
  assert (Hnb : forall m, In m matched -> TS.isBlocking m = false).
  { intros m Hin.
    destruct (matchSkills_configs _ _ _ Hm m Hin) as (n & Hn & _).
    rewrite Forall_forall in Hnone. specialize (Hnone _ Hn). cbn in Hnone.
    unfold TS.isBlocking. apply String.eqb_neq. exact Hnone. }
  assert (Hb : filter TS.isBlocking matched = []).
  { clear Hm. induction matched as [|m ms IH]; [reflexivity|].
    cbn [filter]. rewrite (Hnb m (or_introl eq_refl)).
    apply IH. intros m' Hin. apply Hnb. right. exact Hin. }
  assert (Hs : filter (fun s => negb (TS.isBlocking s)) matched = matched).
  { clear Hm Hb. induction matched as [|m ms IH]; [reflexivity|].
    cbn [filter]. rewrite (Hnb m (or_introl eq_refl)). cbn [negb].
    f_equal. apply IH. intros m' Hin. apply Hnb. right. exact Hin. }
  unfold TS.main, TS.body. cbn [TS.prompt bind].
  rewrite Hread. cbn [bind]. rewrite Hm. cbn [bind].
  rewrite Hb, Hs. destruct matched; reflexivity.
Qed.

Lemma ts_silent_without_block_rules_witness :
  TS.main (Some {| TS.prompt := Some "Create a React component" |})
          (Sample.globalOnly
             (Sample.tsRules
                [("frontend-dev-guidelines",
                  Sample.tsRule "suggest" (Some ["react"]) None);
                 ("route-tester",
                  Sample.tsRule "warn" None (Some ["creat.*component"]))]))
  = Some (Run []
              [DebugSuggested "frontend-dev-guidelines, route-tester"] 0).
Proof.
  refine (ts_silent_without_block_rules
            "Create a React component" _
            (Extra.mapping
               [("frontend-dev-guidelines",
                 Sample.tsRule "suggest" (Some ["react"]) None);
                ("route-tester",
                 Sample.tsRule "warn" None (Some ["creat.*component"]))])
            [{| TS.name := "frontend-dev-guidelines"; TS.kind := TS.keyword;
                TS.config := Sample.tsRule "suggest" (Some ["react"]) None |};
             {| TS.name := "route-tester"; TS.kind := TS.intent;
                TS.config :=
                  Sample.tsRule "warn" None (Some ["creat.*component"]) |}]
            _ _ _).
  - reflexivity.
  - repeat constructor; discriminate.
  - vm_compute. reflexivity.
Defined.

(** ** What the messages contain *)

Lemma append_assoc (a b c : string) :
  ((a ++ b) ++ c = a ++ (b ++ c))%string.
Proof. induction a as [|x a IH]; simpl; [reflexivity | rewrite IH; reflexivity]. Qed.

Lemma append_empty_r (a : string) : (a ++ "" = a)%string.
Proof. induction a as [|x a IH]; simpl; [reflexivity | rewrite IH; reflexivity]. Qed.

Lemma text_chars (s : string) : text (chars s) = s.
Proof. apply string_of_list_ascii_of_string. Qed.

Lemma text_app (a b : list ascii) : (text (a ++ b) = text a ++ text b)%string.
Proof.
  rewrite <- (text_chars (text a ++ text b)%string).
  rewrite chars_append, !chars_text. reflexivity.
Qed.

Lemma concat_contains (x : string) (l : list string) :
  In x l ->
  exists pre post, (String.concat "" l = pre ++ x ++ post)%string.
Proof.
  induction l as [|y l IH]; intros Hin; [destruct Hin|].
  assert (Hstep : (String.concat "" (y :: l) = y ++ String.concat "" l)%string).
  { destruct l; simpl; [rewrite append_empty_r|]; reflexivity. }
  rewrite Hstep. destruct Hin as [->|Hin].
  - exists ""%string, (String.concat "" l). reflexivity.
  - destruct (IH Hin) as (pre & post & E). rewrite E.
    exists (y ++ pre)%string, post. rewrite append_assoc. reflexivity.
Qed.

Lemma drop_spaces_upto (p r : list ascii) (c : ascii) :
  Text.is_space c = false ->
  Text.drop_spaces (p ++ c :: r) = Text.drop_spaces p ++ c :: r.
Proof.
  intros Hc. induction p as [|h p IH]; cbn [app Text.drop_spaces].
  - rewrite Hc. reflexivity.
  - destruct (Text.is_space h); [exact IH | reflexivity].
Qed.

(** [trim] leaves a text alone up to its last character that is not white
    space, when the first one is not white space either. *)
Lemma trim_keeps (x c : ascii) (a b : list ascii) :
  Text.is_space x = false -> Text.is_space c = false ->
  exists b', Text.trim (x :: a ++ c :: b) = x :: a ++ c :: b'.
Proof.
  intros Hx Hc. unfold Text.trim.
  exists (rev (Text.drop_spaces (rev b))).
  cbn [Text.drop_spaces]. rewrite Hx.
  change (x :: a ++ c :: b) with ((x :: a) ++ c :: b).
  rewrite rev_app_distr. cbn [rev]. rewrite <- app_assoc. cbn [app].
  rewrite (drop_spaces_upto _ _ c Hc).
  rewrite rev_app_distr. cbn [rev]. rewrite rev_app_distr, rev_involutive.
  cbn [rev app]. rewrite <- !app_assoc. reflexivity.
Qed.

Lemma formatMessage_keeps_entry :
  forall (analysis : JS.Analysis) (skill : JS.Suggestion.t),
    In skill (JS.blockingSkills analysis) ->
    exists pre post,
      JS.formatMessage analysis
      = Some (pre ++ JS.blockingEntry skill ++ post)%string.
Proof.
  intros analysis skill Hin. unfold JS.formatMessage.
  remember (JS.blockingSkills analysis) as B eqn:EB.
  destruct B as [|b0 bs]; [destruct Hin|].
  cbv beta iota zeta.
  destruct (concat_contains (JS.blockingEntry skill)
              (map JS.blockingEntry (b0 :: bs))
              (in_map _ _ _ Hin)) as (p1 & p2 & Ec).
  rewrite Ec.
  set (S := match JS.shownSuggestions analysis with
            | [] => ""%string
            | _ :: _ => _
            end).
  set (E := JS.blockingEntry skill).
  unfold trim.
  rewrite !chars_append.
  remember (chars "⛔ **SKILL REQUIRED BEFORE PROCEEDING**") as H eqn:EH.
  assert (Hhead : exists x h, H = x :: h /\ Text.is_space x = false).
  { subst H. eexists. eexists. split; [reflexivity|]. vm_compute. reflexivity. }
  destruct Hhead as (x & h & -> & Hx).
  change (chars "---") with (["-"; "-"]%char ++ ["-"]%char).
  destruct (trim_keeps x "-"
              (h ++ chars nl ++ chars nl ++ chars p1 ++ chars E ++ chars p2
                 ++ ["-"; "-"]%char)
              (chars nl ++ chars nl ++ chars S) Hx eq_refl) as (b' & Ht).
  match goal with
  | |- exists pre post, Some (text (Text.trim ?l)) = _ =>
      replace l with
        (x :: (h ++ chars nl ++ chars nl ++ chars p1 ++ chars E ++ chars p2
                 ++ ["-"; "-"]%char)
           ++ "-"%char :: chars nl ++ chars nl ++ chars S)
        by (cbn [app]; rewrite <- !app_assoc; reflexivity)
  end.
  rewrite Ht.
  exists (text (x :: h ++ chars nl ++ chars nl ++ chars p1)).
  exists (text (chars p2 ++ ["-"; "-"; "-"]%char ++ b')).
  f_equal.
  rewrite <- (text_chars E) at 2. rewrite <- !text_app. f_equal.
  cbn [app]. rewrite <- !app_assoc. reflexivity.
Qed.

(** X9. The blocking bucket is written out in full: whatever the number of
    blocking and suggested entries, the message of [formatMessage] contains
    the complete entry (name, description, reasons and the line that tells
    how to load the skill) of every blocking skill. *)
Theorem blocking_entries_all_written :
  forall (analysis : JS.Analysis) (skill : JS.Suggestion.t),
    In skill (JS.blockingSkills analysis) ->
    exists pre post,
      JS.formatMessage analysis
      = Some (pre ++ JS.blockingEntry skill ++ post)%string.
Proof.
  intros analysis skill Hin.
  destruct (formatMessage_keeps_entry analysis skill Hin) as (pre & post & H).
  exists pre, post. exact H.
Qed.

Lemma blocking_entries_all_written_witness :
  exists pre post,
    JS.formatMessage
      {| JS.suggestions :=
           map (fun sk => JS.suggestionOf sk (2, ["keyword match"]))
               Sample.fourRules;
         JS.blockingSkills :=
           [JS.suggestionOf Sample.guardRule (3, ["intent match"])] |}
    = Some (pre
            ++ JS.blockingEntry
                 (JS.suggestionOf Sample.guardRule (3, ["intent match"]))
            ++ post)%string.
Proof.
  apply blocking_entries_all_written. left. reflexivity.
Defined.

(** X10. Every blocking match of the TypeScript hook is named in what it
    prints: when the rules are read and matched, and a matched rule has the
    enforcement "block", the hook prints exactly one message, which holds
    the line of that rule, and ends with status 0. *)
Theorem ts_banner_names_blocking :
  forall (prompt : string) (env : TS.Env) (rules : TS.SkillRules)
         (matched : list TS.MatchedSkill) (s : TS.MatchedSkill),
    TS.readRules (TS.rulesFile env) = Return rules ->
    TS.matchSkills (toLowerCase prompt) (TS.skills rules) = Return matched ->
    In s matched ->
    TS.isBlocking s = true ->
    exists pre post log,
      TS.main (Some {| TS.prompt := Some prompt |}) env
      = Some (Run [(pre ++ "  → " ++ TS.name s ++ nl ++ post)%string] log 0).
Proof.
  intros prompt env rules matched s Hread Hm Hin Hb.
  assert (Hf : In s (filter TS.isBlocking matched))
    by (apply filter_In; split; assumption).
  unfold TS.main, TS.body. cbn [TS.prompt bind].
  rewrite Hread. cbn [bind]. rewrite Hm. cbn [bind].
  destruct (filter TS.isBlocking matched) as [|b0 bs] eqn:Ef; [destruct Hf|].
  rewrite <- Ef in *. unfold TS.banner.
  destruct (concat_contains ("  → " ++ TS.name s ++ nl)%string
              (map (fun s0 => ("  → " ++ TS.name s0 ++ nl)%string)
                   (filter TS.isBlocking matched)))
    as (p1 & p2 & Ec).
  { apply (in_map (fun s0 => ("  → " ++ TS.name s0 ++ nl)%string)).
    exact Hf. }
  rewrite Ec.
  eexists (TS.rule_ ++ nl ++ "🎯 SKILL ACTIVATION REQUIRED" ++ nl
           ++ TS.rule_ ++ nl ++ nl
           ++ "⚠️ REQUIRED SKILLS (must use before proceeding):" ++ nl
           ++ p1)%string.
  eexists. eexists. do 3 f_equal.
  rewrite !append_assoc. reflexivity.
Qed.

Lemma ts_banner_names_blocking_witness :
  exists pre post log,
    TS.main (Some {| TS.prompt := Some "please DELETE the production db" |})
            (Sample.globalOnly
               (Sample.tsRules
                  [("db-guard",
                    Sample.tsRule "block" None (Some ["delete.*production"]))]))
    = Some (Run [(pre ++ "  → " ++ "db-guard" ++ nl ++ post)%string] log 0).
Proof.
  refine (ts_banner_names_blocking
            "please DELETE the production db" _
            (Extra.mapping
               [("db-guard",
                 Sample.tsRule "block" None (Some ["delete.*production"]))])
            [{| TS.name := "db-guard"; TS.kind := TS.intent;
                TS.config :=
                  Sample.tsRule "block" None (Some ["delete.*production"]) |}]
            {| TS.name := "db-guard"; TS.kind := TS.intent;
               TS.config :=
                 Sample.tsRule "block" None (Some ["delete.*production"]) |}
            _ _ _ _).
  - reflexivity.
  - vm_compute. reflexivity.
  - left. reflexivity.
  - reflexivity.
Defined.

(** ** The glob matcher on simple patterns *)

Lemma flat_map_flat_map {A B C : Type} (f : A -> list B) (g : B -> list C)
      (l : list A) :
  flat_map g (flat_map f l) = flat_map (fun x => flat_map g (f x)) l.
Proof.
  induction l as [|x l IH]; simpl; [reflexivity|].
  rewrite flat_map_app, IH. reflexivity.
Qed.

Lemma star_star_cons (by_ : list ascii) (x : ascii) (r : list ascii) :
  (x =? "*")%char = false ->
  Text.replace_star_star by_ (x :: r) = x :: Text.replace_star_star by_ r.
Proof.
  intros Hx. cbn [Text.replace_star_star]. destruct r as [|d r'].
  - reflexivity.
  - rewrite Hx. reflexivity.
Qed.

Lemma star_star_single (by_ : list ascii) (r : list ascii) :
  match r with d :: _ => (d =? "*")%char = false | [] => True end ->
  Text.replace_star_star by_ ("*"%char :: r)
  = "*"%char :: Text.replace_star_star by_ r.
Proof.
  intros Hr. cbn [Text.replace_star_star]. destruct r as [|d r'].
  - reflexivity.
  - rewrite Hr, andb_false_r. reflexivity.
Qed.

Lemma escape_dot_head (p : list ascii) :
  match p with d :: _ => (d =? "*")%char = false | [] => True end ->
  match Text.replace_char "." (chars "\.") p with
  | d :: _ => (d =? "*")%char = false
  | [] => True
  end.
Proof.
  destruct p as [|d p]; [intros _; exact I|].
  intros Hd. unfold Text.replace_char. cbn [flat_map].
  destruct (d =? ".")%char; [reflexivity | exact Hd].
Qed.

Lemma simple_tail (c : ascii) (p : list ascii) :
  Glob.simple (c :: p) = true -> Glob.simple p = true.
Proof.
  cbn [Glob.simple]. destruct (c =? "*")%char; intros H;
    apply andb_true_iff in H; apply H.
Qed.

Lemma simple_after_star (p : list ascii) :
  Glob.simple ("*"%char :: p) = true ->
  match p with d :: _ => (d =? "*")%char = false | [] => True end.
Proof.
  cbn [Glob.simple]. change (("*" =? "*")%char) with true. cbv iota.
  intros H. apply andb_true_iff in H. destruct H as [H _].
  destruct p; [exact I | apply negb_true_iff; exact H].
Qed.

Lemma stars_left_alone (p : list ascii) :
  Glob.simple p = true ->
  Text.replace_star_star (chars ".*") (Text.replace_char "." (chars "\.") p)
  = Text.replace_char "." (chars "\.") p.
Proof.
  induction p as [|c p IH]; intros Hs; [reflexivity|].
  pose proof (IH (simple_tail _ _ Hs)) as IH'.
  unfold Text.replace_char in *. cbn [flat_map].
  destruct (c =? ".")%char eqn:Edot.
  - apply Ascii.eqb_eq in Edot. subst c.
    change (chars "\.") with ["\"; "."]%char in *. cbn [app].
    rewrite star_star_cons by reflexivity.
    rewrite star_star_cons by reflexivity. rewrite IH'. reflexivity.
  - cbn [app]. destruct (c =? "*")%char eqn:Estar.
    + apply Ascii.eqb_eq in Estar. subst c.
      rewrite star_star_single; [rewrite IH'; reflexivity|].
      apply escape_dot_head. apply simple_after_star. exact Hs.
    + rewrite star_star_cons by exact Estar. rewrite IH'. reflexivity.
Qed.

Lemma source_of_char (c : ascii) :
  Text.replace_char "?" (chars ".")
    (Text.replace_char "*" (chars "[^/]*")
       (if (c =? ".")%char then chars "\." else [c]))
  = Glob.source c.
Proof. each_char c. Qed.

(** The regular expression written for a simple pattern, piece by piece. *)
Lemma translate_simple (p : list ascii) :
  Glob.simple p = true -> Glob.translate p = flat_map Glob.source p.
Proof.
  intros Hs. unfold Glob.translate. rewrite (stars_left_alone p Hs).
  unfold Text.replace_char at 2 3. rewrite flat_map_flat_map.
  unfold Text.replace_char at 1. rewrite flat_map_flat_map.
  apply flat_map_ext. intros c.
  pose proof (source_of_char c) as H. unfold Text.replace_char in H.
  exact H.
Qed.

Lemma ordinary_token (c : ascii) :
  Glob.ordinary c = true -> (c =? "*")%char = false ->
  (c =? "?")%char = false ->
  forall rest,
    RegExp.lex (Glob.source c ++ rest)
    = RegExp.KAtom (RegExp.AChar c) :: RegExp.lex rest.
Proof.
  intros Ho Hs Hq rest. unfold Glob.ordinary in Ho. unfold Glob.source.
  destruct (c =? ".")%char eqn:Edot.
  - apply Ascii.eqb_eq in Edot. subst c. reflexivity.
  - rewrite Hs, Hq. cbn [orb] in Ho. apply negb_true_iff in Ho.
    destruct (plain_char_token c Ho) as (H1 & H2 & H3).
    cbn [app RegExp.lex]. rewrite H1, H2, H3. reflexivity.
Qed.

Lemma lex_simple (p rest : list ascii) :
  Glob.simple p = true ->
  RegExp.lex (flat_map Glob.source p ++ rest)
  = flat_map Glob.tokens p ++ RegExp.lex rest.
Proof.
  induction p as [|c p IH]; intros Hs; [reflexivity|].
  pose proof (IH (simple_tail _ _ Hs)) as IH'.
  cbn [flat_map]. rewrite <- app_assoc.
  cbn [Glob.simple] in Hs. unfold Glob.tokens.
  destruct (c =? "*")%char eqn:Estar.
  - apply Ascii.eqb_eq in Estar. subst c.
    transitivity (RegExp.KAtom RegExp.ANotSlash :: RegExp.KStar
                    :: RegExp.lex (flat_map Glob.source p ++ rest));
      [reflexivity|].
    rewrite IH'. reflexivity.
  - apply andb_true_iff in Hs. destruct Hs as [Hc _].
    destruct (c =? "?")%char eqn:Eq.
    + apply Ascii.eqb_eq in Eq. subst c.
      transitivity (RegExp.KAtom RegExp.ADot
                      :: RegExp.lex (flat_map Glob.source p ++ rest));
        [reflexivity|].
      rewrite IH'. reflexivity.
    + cbn [orb] in Hc. rewrite (ordinary_token c Hc Estar Eq), IH'.
      reflexivity.
Qed.

Lemma tokens_head (p : list ascii) (a : RegExp.assertion) :
  exists t ts,
    flat_map Glob.tokens p ++ [RegExp.KAssert a] = t :: ts
    /\ RegExp.quantifier t = None.
Proof.
  destruct p as [|c p].
  - eexists. eexists. split; reflexivity.
  - cbn [flat_map]. unfold Glob.tokens at 1.
    destruct (c =? "*")%char; [|destruct (c =? "?")%char];
      eexists; eexists; split; reflexivity.
Qed.

Lemma parse_simple (a : RegExp.assertion) (p : list ascii) :
  forall (cur : list RegExp.term) (done : list RegExp.alternative),
    RegExp.parse (flat_map Glob.tokens p ++ [RegExp.KAssert a]) cur done
    = RegExp.Regex
        (rev (rev (RegExp.TAssert a :: rev (map Glob.term p) ++ cur) :: done)).
Proof.
  induction p as [|c p IH]; intros cur done; [reflexivity|].
  cbn [flat_map map rev].
  destruct (tokens_head p a) as (t & ts & Ets & Hq).
  assert (Hone : forall x,
             RegExp.parse
               (RegExp.KAtom x :: flat_map Glob.tokens p ++ [RegExp.KAssert a])
               cur done
             = RegExp.parse (flat_map Glob.tokens p ++ [RegExp.KAssert a])
                            (RegExp.TAtom x RegExp.One :: cur) done).
  { intros x. rewrite Ets. cbn [RegExp.parse]. rewrite Hq. reflexivity. }
  unfold Glob.tokens at 1. unfold Glob.term at 2.
  destruct (c =? "*")%char.
  - cbn [app RegExp.parse RegExp.quantifier]. rewrite Ets.
    assert (Hnq : RegExp.parse
                    match t with
                    | RegExp.KQuest => ts
                    | _ => t :: ts
                    end = RegExp.parse (t :: ts))
      by (destruct t; try reflexivity; discriminate Hq).
    destruct t; try discriminate Hq; rewrite <- Ets, IH;
      rewrite <- !app_assoc; reflexivity.
  - destruct (c =? "?")%char; cbn [app]; rewrite Hone, IH;
      rewrite <- !app_assoc; reflexivity.
Qed.

Lemma compile_simple (p : list ascii) :
  Glob.simple p = true ->
  RegExp.compile (chars "^" ++ Glob.translate p ++ chars "$")
  = RegExp.Regex
      [RegExp.TAssert RegExp.Bol
         :: map Glob.term p ++ [RegExp.TAssert RegExp.Eol]].
Proof.
  intros Hs. unfold RegExp.compile. rewrite (translate_simple p Hs).
  transitivity
    (RegExp.parse
       (RegExp.KAssert RegExp.Bol
          :: RegExp.lex (flat_map Glob.source p ++ chars "$")) [] []);
    [reflexivity|].
  rewrite (lex_simple p _ Hs).
  change (RegExp.lex (chars "$")) with [RegExp.KAssert RegExp.Eol].
  cbn [RegExp.parse]. rewrite parse_simple.
  cbn [rev app]. rewrite rev_app_distr, rev_involutive. reflexivity.
Qed.

Lemma star_spec (ok : ascii -> bool)
      (k : option ascii -> list ascii -> bool) :
  forall (s : list ascii) (prev : option ascii),
    RegExp.star ok k prev s = true
    <-> exists run rest,
        s = run ++ rest
        /\ forallb ok run = true
        /\ k (Keyword.lastOf prev run) rest = true.
Proof.
  induction s as [|c s IH]; intros prev; cbn [RegExp.star].
  - rewrite orb_false_r. split.
    + intros H. exists [], []. repeat split. exact H.
    + intros (run & rest & E & _ & H). symmetry in E.
      apply app_eq_nil in E. destruct E as [-> ->]. exact H.
  - rewrite orb_true_iff, andb_true_iff, IH. split.
    + intros [H | [Hc (run & rest & -> & Hall & H)]].
      * exists [], (c :: s). repeat split. exact H.
      * exists (c :: run), rest. repeat split; [|exact H].
        cbn [forallb]. rewrite Hc. exact Hall.
    + intros (run & rest & E & Hall & H). destruct run as [|c' run].
      * left. cbn in E. subst rest. exact H.
      * right. cbn in E. injection E as <- ->. cbn [forallb] in Hall.
        apply andb_true_iff in Hall. destruct Hall as [Hc Hall].
        split; [exact Hc|]. exists run, rest. repeat split; assumption.
Qed.

Lemma no_separator (run : list ascii) :
  forallb (RegExp.atom_matches false RegExp.ANotSlash) run = true
  <-> ~ In "/"%char run.
Proof.
  induction run as [|c run IH]; cbn [forallb RegExp.atom_matches In].
  - split; [intros _ [] | reflexivity].
  - rewrite andb_true_iff, IH, negb_true_iff, Ascii.eqb_neq. split.
    + intros [Hc Hr] [E|Hin]; [apply Hc; exact E | exact (Hr Hin)].
    + intros H. split; [intros E; apply H; left; exact E|].
      intros Hin. apply H. right. exact Hin.
Qed.

Lemma match_simple (p : list ascii) :
  forall (prev : option ascii) (s : list ascii),
    RegExp.match_here false
      (map Glob.term p ++ [RegExp.TAssert RegExp.Eol]) prev s = true
    <-> Glob.matches p s.
Proof.
  induction p as [|c p IH]; intros prev s.
  - cbn. rewrite andb_true_r. destruct s; split; congruence.
  - cbn [map app Glob.matches]. unfold Glob.term at 1.
    destruct (c =? "*")%char.
    + cbn [RegExp.match_here]. rewrite star_spec. split.
      * intros (run & rest & -> & Hall & H). exists run, rest.
        split; [reflexivity|]. split; [apply no_separator; exact Hall|].
        apply (IH (Keyword.lastOf prev run) rest). exact H.
      * intros (run & rest & -> & Hall & H). exists run, rest.
        split; [reflexivity|]. split; [apply no_separator; exact Hall|].
        apply (IH (Keyword.lastOf prev run) rest). exact H.
    + destruct (c =? "?")%char; cbn [RegExp.match_here];
        unfold RegExp.one; cbn [RegExp.atom_matches];
        unfold RegExp.same_char.
      * destruct s as [|x s'].
        -- split; [discriminate | intros (y & rest & E & _); discriminate].
        -- rewrite andb_true_iff, negb_true_iff, IH. split.
           ++ intros [Hx H]. exists x, s'. repeat split; assumption.
           ++ intros (y & rest & E & Hy & H). injection E as -> ->.
              split; assumption.
      * destruct s as [|x s'].
        -- split; [discriminate | intros (rest & E & _); discriminate].
        -- rewrite andb_true_iff, Ascii.eqb_eq, IH. split.
           ++ intros [-> H]. exists s'. split; [reflexivity | exact H].
           ++ intros (rest & E & H). injection E as -> ->.
              split; [reflexivity | exact H].
Qed.

(** An expression that opens with [^] matches at the first index only. *)
Lemma search_anchored (icase : bool) (ts : RegExp.alternative) :
  forall (s : list ascii),
    (forall x, RegExp.search icase [RegExp.TAssert RegExp.Bol :: ts]
                             (Some x) s = false)
    /\ RegExp.search icase [RegExp.TAssert RegExp.Bol :: ts] None s
       = RegExp.match_here icase ts None s.
Proof.
  induction s as [|c s [IHsome _]].
  - split; [reflexivity|]. cbn. rewrite !orb_false_r. reflexivity.
  - split.
    + intros x. cbn [RegExp.search RegExp.match_at existsb RegExp.match_here
                     RegExp.holds andb orb]. apply IHsome.
    + cbn [RegExp.search RegExp.match_at existsb RegExp.match_here
           RegExp.holds andb]. rewrite IHsome, !orb_false_r. reflexivity.
Qed.

Lemma glob_test (pattern filePath : string) :
  Glob.simple (chars pattern) = true ->
  exists b,
    RegExp.test false ("^" ++ JS.regexPattern pattern ++ "$") filePath
    = Return b
    /\ (b = true <-> Glob.matches (chars pattern) (chars filePath)).
Proof.
  intros Hs. unfold RegExp.test.
  rewrite !chars_append.
  change (JS.regexPattern pattern)
    with (text (Glob.translate (chars pattern))).
  rewrite chars_text, (compile_simple _ Hs).
  eexists. split; [reflexivity|].
  rewrite (proj2 (search_anchored false _ (chars filePath))).
  apply match_simple.
Qed.

(** X11. On patterns made of ordinary characters, [?] and stars that stand
    alone, [matchesFilePattern] is the glob matcher: it answers [true]
    exactly when some pattern of the list accepts the whole path, a star
    standing for a run of characters other than [/], a question mark for one
    character that is not a line terminator, and every other character, the
    dot included, for itself. *)
Theorem glob_matcher_on_simple_patterns :
  forall (filePath : string) (patterns : list string),
    Forall (fun p => Glob.simple (chars p) = true) patterns ->
    exists b,
      JS.matchesFilePattern filePath (Some patterns) = Return b
      /\ (b = true
          <-> exists p, In p patterns
                        /\ Glob.matches (chars p) (chars filePath)).
Proof.
  intros filePath patterns Hall. rewrite Forall_forall in Hall.
  set (f := fun pattern =>
              RegExp.test false ("^" ++ JS.regexPattern pattern ++ "$")
                          filePath).
  assert (Hret : forall p, In p patterns -> returns (f p)).
  { intros p Hin. destruct (glob_test p filePath (Hall p Hin)) as (b & Hb & _).
    exists b. exact Hb. }
  exists (existsb (fun p => hit (f p)) patterns). split.
  - destruct patterns as [|p0 ps]; [reflexivity|].
    unfold JS.matchesFilePattern. fold f. apply some_returns. exact Hret.
  - rewrite existsb_exists. split.
    + intros (p & Hin & Hh). exists p. split; [exact Hin|].
      destruct (glob_test p filePath (Hall p Hin)) as (b & Hb & Hiff).
      apply Hiff. apply hit_true in Hh. unfold f in Hh.
      rewrite Hb in Hh. injection Hh as ->. reflexivity.
    + intros (p & Hin & Hm). exists p. split; [exact Hin|].
      destruct (glob_test p filePath (Hall p Hin)) as (b & Hb & Hiff).
      unfold f. rewrite Hb. apply Hiff in Hm. rewrite Hm. reflexivity.
Qed.

Lemma glob_matcher_on_simple_patterns_witness :
  exists b,
    JS.matchesFilePattern "db/migrate/001_init.sql"
                          (Some ["*.rb"; "db/*/00?_*.sql"])
    = Return b
    /\ (b = true
        <-> exists p, In p ["*.rb"; "db/*/00?_*.sql"]
                      /\ Glob.matches (chars p)
                                      (chars "db/migrate/001_init.sql")).
Proof.
  apply glob_matcher_on_simple_patterns. repeat constructor.
Defined.

(** ** The two intent tests *)

Lemma canonical_lower (c : ascii) :
  Text.canonical (Text.lower_char c) = Text.canonical c.
Proof. each_char c. Qed.

Lemma same_any_case (a b : list ascii) :
  Forall2 (fun x c => RegExp.same_char true x c = true) a (Text.lower b)
  <-> Text.lower b = Text.lower a.
Proof.
  rewrite <- same_lowered. unfold Text.lower.
  split; intros H.
  - remember (map Text.lower_char b) as m eqn:Em. clear Em.
    induction H as [|x c a m Hc _ IH]; cbn [map]; constructor; [|exact IH].
    unfold RegExp.same_char in *. rewrite canonical_lower. exact Hc.
  - remember (map Text.lower_char b) as m eqn:Em. clear Em.
    revert m H. induction a as [|x a IH]; intros m H; cbn [map] in H;
      inversion H as [|x' c a' m' Hc HF]; subst; constructor.
    + unfold RegExp.same_char in *. rewrite canonical_lower in Hc. exact Hc.
    + apply IH. exact HF.
Qed.

Lemma parse_atoms (l : list ascii) :
  forall (cur : list RegExp.term) (done : list RegExp.alternative),
    RegExp.parse (map (fun c => RegExp.KAtom (RegExp.AChar c)) l) cur done
    = RegExp.Regex (rev (rev (rev (Keyword.literal l) ++ cur) :: done)).
Proof.
  induction l as [|c l IH]; intros cur done; [reflexivity|].
  cbn [map RegExp.parse]. destruct l as [|d l].
  - reflexivity.
  - cbn [map RegExp.quantifier].
    change (RegExp.KAtom (RegExp.AChar d)
              :: map (fun c0 => RegExp.KAtom (RegExp.AChar c0)) l)
      with (map (fun c0 => RegExp.KAtom (RegExp.AChar c0)) (d :: l)).
    rewrite IH. cbn [Keyword.literal map rev].
    rewrite <- !app_assoc. reflexivity.
Qed.

Lemma compile_plain (l : list ascii) :
  forallb (fun c => negb (RegExp.is_syntax_char c)) l = true ->
  RegExp.compile l = RegExp.Regex [Keyword.literal l].
Proof.
  intros H. unfold RegExp.compile.
  rewrite <- (app_nil_r l) at 1. rewrite (lex_plain l [] H).
  cbn [RegExp.lex]. rewrite app_nil_r, parse_atoms.
  cbn [rev app]. rewrite app_nil_r, rev_involutive. reflexivity.
Qed.

(** A plain pattern used as a regular expression with the [i] flag finds its
    occurrences, letter case ignored. *)
Lemma intent_test (pattern subject : string) :
  Keyword.plain pattern = true ->
  exists b,
    RegExp.test true pattern (toLowerCase subject) = Return b
    /\ (b = true <-> Keyword.occurs pattern subject).
Proof.
  intros Hp. unfold RegExp.test. rewrite (compile_plain _ Hp).
  eexists. split; [reflexivity|].
  rewrite search_spec, chars_toLowerCase.
  unfold RegExp.match_at, Keyword.occurs, Text.lower.
  cbn [existsb]. split.
  - intros (pre & rest & E & H). rewrite orb_false_r in H.
    rewrite <- (app_nil_r (Keyword.literal (chars pattern))) in H.
    apply match_literal in H. destruct H as (mid & post & -> & HF & _).
    apply map_eq_app in E. destruct E as (pre0 & rest0 & E0 & <- & E).
    apply map_eq_app in E. destruct E as (mid0 & post0 & -> & <- & <-).
    exists pre0, mid0, post0. split; [exact E0|].
    apply same_any_case. exact HF.
  - intros (pre & mid & post & E & Em).
    exists (map Text.lower_char pre),
           (map Text.lower_char mid ++ map Text.lower_char post).
    split; [rewrite E, !map_app; reflexivity|].
    rewrite orb_false_r.
    rewrite <- (app_nil_r (Keyword.literal (chars pattern))).
    apply match_literal.
    exists (map Text.lower_char mid), (map Text.lower_char post).
    split; [reflexivity|]. split; [|reflexivity].
    apply same_any_case. exact Em.
Qed.

Lemma existsb_agree {A : Type} (f g : A -> bool) (l : list A) :
  (forall x, In x l -> f x = g x) -> existsb f l = existsb g l.
Proof.
  induction l as [|x l IH]; intros H; [reflexivity|].
  cbn [existsb]. rewrite (H x (or_introl eq_refl)), IH; [reflexivity|].
  intros y Hy. apply H. right. exact Hy.
Qed.

(** X12. On patterns without regular-expression syntax the two hooks agree
    about intents: the test of the TypeScript hook, which reads each pattern
    as a regular expression with the [i] flag, returns what [matchesIntent]
    of the JavaScript hook answers by substring containment. *)
Theorem intent_tests_agree_on_plain_patterns :
  forall (prompt : string) (patterns : list string),
    Forall (fun p => Keyword.plain p = true) patterns ->
    TS.intentMatch (toLowerCase prompt) patterns
    = Return (JS.matchesIntent prompt (Some patterns)).
Proof.
  intros prompt patterns Hall. rewrite Forall_forall in Hall.
  unfold TS.intentMatch. rewrite some_returns.
  - f_equal. destruct patterns as [|p0 ps]; [reflexivity|].
    unfold JS.matchesIntent. apply existsb_agree. intros p Hin.
    destruct (intent_test p prompt (Hall p Hin)) as (b & Hb & Hiff).
    rewrite Hb. apply eq_true_iff_eq. rewrite hit_Return, Hiff.
    symmetry. apply includes_lowered.
  - intros p Hin.
    destruct (intent_test p prompt (Hall p Hin)) as (b & Hb & _).
    exists b. exact Hb.
Qed.

Lemma intent_tests_agree_on_plain_patterns_witness :
  TS.intentMatch (toLowerCase "Please DELETE the Production db")
                 ["drop table"; "delete the production"]
  = Return (JS.matchesIntent "Please DELETE the Production db"
                             (Some ["drop table"; "delete the production"])).
Proof.
  apply intent_tests_agree_on_plain_patterns. repeat constructor.
Defined.

(** ** Order of the keywords *)

(** X13. The keywords of a rule are tried in order and the first hit ends
    the search: when the keywords before [k] do not occur, a hit on [k] makes
    [containsKeywords] answer [true] without looking at the keywords after
    it, and a keyword [k] that is not a valid regular expression makes it
    raise. *)
Theorem keywords_tried_in_order :
  forall (subject : string) (before after : list string) (k : string),
    Forall (fun kw =>
              RegExp.test true ("\b" ++ toLowerCase kw ++ "\b")
                          (toLowerCase subject) = Return false) before ->
    (RegExp.test true ("\b" ++ toLowerCase k ++ "\b") (toLowerCase subject)
     = Return true ->
     JS.containsKeywords subject (Some (before ++ k :: after)) = Return true)
    /\ (forall e,
           RegExp.test true ("\b" ++ toLowerCase k ++ "\b")
                       (toLowerCase subject) = Raise e ->
           JS.containsKeywords subject (Some (before ++ k :: after))
           = Raise e).
Proof.
  intros subject before after k Hbefore.
  assert (Hsome : forall r,
             RegExp.test true ("\b" ++ toLowerCase k ++ "\b")
                         (toLowerCase subject) = r ->
             (r = Return true \/ exists e, r = Raise e) ->
             some (fun keyword =>
                     RegExp.test true ("\b" ++ toLowerCase keyword ++ "\b")
                                 (toLowerCase subject))
                  (before ++ k :: after) = r).
  { intros r Hk Hr. induction Hbefore as [|kw before Hkw _ IH].
    - cbn [app some]. rewrite Hk.
      destruct Hr as [-> | [e ->]]; reflexivity.
    - cbn [app some]. rewrite Hkw. cbn [bind]. exact IH. }
  assert (Hshape : forall r,
             some (fun keyword =>
                     RegExp.test true ("\b" ++ toLowerCase keyword ++ "\b")
                                 (toLowerCase subject))
                  (before ++ k :: after) = r ->
             JS.containsKeywords subject (Some (before ++ k :: after)) = r).
  { intros r H. unfold JS.containsKeywords.
    destruct (before ++ k :: after) eqn:E; [|exact H].
    destruct before; discriminate E. }
  split.
  - intros Hk. apply Hshape, Hsome; [exact Hk | left; reflexivity].
  - intros e Hk. apply Hshape, Hsome; [exact Hk | right; exists e; reflexivity].
Qed.

Lemma keywords_tried_in_order_witness :
  JS.containsKeywords "port the api" (Some (["graphql"] ++ "api" :: ["c++"]))
  = Return true
  /\ JS.containsKeywords "port the api" (Some (["graphql"] ++ "c++" :: ["api"]))
     = Raise (SyntaxError "\bc++\b").
Proof.
  split.
  - refine (proj1 (keywords_tried_in_order
                     "port the api" ["graphql"] ["c++"] "api" _) _).
    + repeat constructor.
    + vm_compute. reflexivity.
  - refine (proj2 (keywords_tried_in_order
                     "port the api" ["graphql"] ["api"] "c++" _) _ _).
    + repeat constructor.
    + vm_compute. reflexivity.
Defined.

(** ** Blocking matches reach the output *)

(** X14. A blocking match is always printed: when the analysis of a
    non-empty prompt returns a decision with a blocking entry, [main] prints
    exactly one message, which contains the complete entry of that skill,
    and ends with status 0, however many other entries there are. *)
Theorem blocking_match_is_printed :
  forall (input : JS.HookInput) (rulesFile : disk_file JS.SkillRules)
         (analysis : JS.Analysis) (skill : JS.Suggestion.t),
    JS.userPromptOf input <> "" ->
    snd (JS.analyzePrompt rulesFile (JS.userPromptOf input)
                          (JS.contextFilesOf input)) = Return analysis ->
    In skill (JS.blockingSkills analysis) ->
    exists pre post,
      JS.main (Some input) rulesFile
      = Some (Run [(pre ++ JS.blockingEntry skill ++ post)%string]
                  (snd (JS.loadSkillRules rulesFile)) 0).
Proof.
  intros input rulesFile analysis skill Hp Hrun Hin.
  destruct (formatMessage_keeps_entry analysis skill Hin)
    as (pre & post & Hm).
  exists pre, post. apply String.eqb_neq in Hp.
  unfold JS.main. rewrite Hp. unfold JS.analyzePrompt in *.
  destruct (JS.loadSkillRules rulesFile) as [rules log]. cbn [snd] in *.
  rewrite Hrun, Hm.
  assert (Hne : ((pre ++ JS.blockingEntry skill ++ post) =? "")%string = false)
    by (unfold JS.blockingEntry; cbn [append]; destruct pre; reflexivity).
  rewrite Hne. reflexivity.
Qed.

Lemma blocking_match_is_printed_witness :
  exists pre post,
    JS.main (Some (Sample.ask "delete the production api" []))
            (Sample.collection (Sample.guardRule :: Sample.fourRules))
    = Some (Run [(pre
                  ++ JS.blockingEntry
                       (JS.suggestionOf Sample.guardRule (3, ["intent match"]))
                  ++ post)%string]
                [] 0).
Proof.
  destruct (blocking_match_is_printed
              (Sample.ask "delete the production api" [])
              (Sample.collection (Sample.guardRule :: Sample.fourRules))
              {| JS.suggestions :=
                   map (fun sk => JS.suggestionOf sk (2, ["keyword match"]))
                       Sample.fourRules;
                 JS.blockingSkills :=
                   [JS.suggestionOf Sample.guardRule (3, ["intent match"])] |}
              (JS.suggestionOf Sample.guardRule (3, ["intent match"])))
    as (pre & post & H).
  - discriminate.
  - vm_compute. reflexivity.
  - left. reflexivity.
  - exists pre, post. exact H.
Defined.

(** ** When a rule of the TypeScript hook matches *)

(** X15. A rule of the TypeScript hook whose intent patterns hold no
    regular-expression syntax matches exactly when one of its keywords or
    one of its intent patterns occurs in the prompt, letter case ignored.
    The match is recorded once under the name of the rule: as a keyword
    match when a keyword occurs, as an intent match when only an intent
    pattern occurs; nothing is recorded when neither occurs. *)
Theorem ts_rule_matches_iff :
  forall (prompt skillName : string) (config : TS.SkillRule)
         (triggers : TS.PromptTriggers),
    TS.promptTriggers config = Some triggers ->
    Forall (fun p => Keyword.plain p = true)
           (Extra.listed (TS.intentPatterns triggers)) ->
    let byKeyword :=
      exists kw, In kw (Extra.listed (TS.keywords triggers))
                 /\ Keyword.occurs kw prompt in
    let byIntent :=
      exists p, In p (Extra.listed (TS.intentPatterns triggers))
                /\ Keyword.occurs p prompt in
    exists pushed,
      TS.checkSkill (toLowerCase prompt) (skillName, config) = Return pushed
      /\ (pushed <> [] <-> byKeyword \/ byIntent)
      /\ (byKeyword ->
          pushed = [{| TS.name := skillName; TS.kind := TS.keyword;
                       TS.config := config |}])
      /\ (~ byKeyword -> byIntent ->
          pushed = [{| TS.name := skillName; TS.kind := TS.intent;
                       TS.config := config |}])
      /\ (~ byKeyword -> ~ byIntent -> pushed = []).
Proof.
  intros prompt skillName config triggers Ht Hplain byKeyword byIntent.
  set (kb := TS.keywordMatch (toLowerCase prompt)
                             (Extra.listed (TS.keywords triggers))).
  set (ib := JS.matchesIntent prompt
                              (Some (Extra.listed (TS.intentPatterns triggers)))).
  assert (Hkb : kb = true <-> byKeyword).
  { unfold kb, byKeyword, TS.keywordMatch. rewrite existsb_exists.
    split; intros (kw & Hin & H); exists kw; (split; [exact Hin|]);
      apply includes_lowered; exact H. }
  assert (Hib : ib = true <-> byIntent).
  { unfold ib, byIntent.
    destruct (Extra.listed (TS.intentPatterns triggers)) as [|p0 ps'].
    - split; [discriminate | intros (p & [] & _)].
    - unfold JS.matchesIntent. rewrite existsb_exists.
      split; intros (p & Hin & H); exists p; (split; [exact Hin|]);
        apply includes_lowered; exact H. }
  assert (Hrun : TS.intentMatch (toLowerCase prompt)
                                (Extra.listed (TS.intentPatterns triggers))
                 = Return ib).
  { unfold TS.intentMatch, ib. rewrite Forall_forall in Hplain.
    rewrite some_returns.
    - f_equal.
      destruct (Extra.listed (TS.intentPatterns triggers)) as [|p0 ps'] eqn:El;
        [reflexivity|].
      unfold JS.matchesIntent. apply existsb_agree. intros p Hin.
      destruct (intent_test p prompt (Hplain p Hin)) as (b & Hb & Hiff).
      rewrite Hb. apply eq_true_iff_eq. rewrite hit_Return, Hiff.
      symmetry. apply includes_lowered.
    - intros p Hin.
      destruct (intent_test p prompt (Hplain p Hin)) as (b & Hb & _).
      exists b. exact Hb. }
  assert (Hcheck :
            TS.checkSkill (toLowerCase prompt) (skillName, config)
            = Return (if kb
                      then [{| TS.name := skillName; TS.kind := TS.keyword;
                               TS.config := config |}]
                      else if ib
                           then [{| TS.name := skillName; TS.kind := TS.intent;
                                    TS.config := config |}]
                           else [])).
  { unfold TS.checkSkill. rewrite Ht. unfold kb. clear Hkb.
    destruct (TS.keywords triggers) as [ks|]; cbn [Extra.listed];
      [destruct (TS.keywordMatch (toLowerCase prompt) ks); [reflexivity|]|];
      cbn [TS.keywordMatch existsb];
      (destruct (TS.intentPatterns triggers) as [ps|];
       cbn [Extra.listed] in *; [rewrite Hrun; reflexivity|]);
      reflexivity. }
  eexists. split; [exact Hcheck|].
  destruct kb, ib; repeat split; intros; try reflexivity; try discriminate;
    try (left; apply Hkb; reflexivity);
    try (right; apply Hib; reflexivity);
    try (exfalso;
         match goal with
         | H : ~ byKeyword |- _ => apply H; apply Hkb; reflexivity
         | H : ~ byIntent |- _ => apply H; apply Hib; reflexivity
         | H : byKeyword |- _ => apply Hkb in H; discriminate H
         | H : byIntent |- _ => apply Hib in H; discriminate H
         | H : ?x <> ?x |- _ => apply H; reflexivity
         | H : byKeyword \/ byIntent |- _ =>
             destruct H as [H|H]; [apply Hkb in H | apply Hib in H];
             discriminate H
         end).
Qed.

Lemma ts_rule_matches_iff_witness :
  TS.checkSkill (toLowerCase "Add a REST endpoint")
                ("api-guidelines",
                 Sample.tsRule "suggest" (Some ["graphql"])
                               (Some ["rest endpoint"]))
  = Return [{| TS.name := "api-guidelines"; TS.kind := TS.intent;
               TS.config := Sample.tsRule "suggest" (Some ["graphql"])
                                          (Some ["rest endpoint"]) |}].
Proof.
  destruct (ts_rule_matches_iff
              "Add a REST endpoint" "api-guidelines"
              (Sample.tsRule "suggest" (Some ["graphql"])
                             (Some ["rest endpoint"]))
              {| TS.keywords := Some ["graphql"];
                 TS.intentPatterns := Some ["rest endpoint"] |})
    as (pushed & Hrun & _ & _ & Hintent & _).
  - reflexivity.
  - repeat constructor.
  - rewrite Hrun. f_equal. apply Hintent.
    + intros (kw & [<-|[]] & Hocc).
      apply includes_lowered in Hocc. vm_compute in Hocc. discriminate Hocc.
    + exists "rest endpoint". split; [left; reflexivity|].
      exists (chars "Add a "), (chars "REST endpoint"), []. split; reflexivity.
Defined.

(** ** Letter case beyond ASCII *)

(** The capital A with grave (code unit 192) and the small one (224) are one
    letter for both hooks, as keyword, as intent and under the [i] flag. *)
Example latin_letters_fold :
  let upper := ("x" ++ String (ascii_of_nat 192) "x")%string in
  let lower := ("x" ++ String (ascii_of_nat 224) "x")%string in
  toLowerCase upper = lower
  /\ JS.containsKeywords upper (Some [lower]) = Return true
  /\ JS.containsKeywords lower (Some [upper]) = Return true
  /\ JS.matchesIntent upper (Some [lower]) = true
  /\ TS.keywordMatch (toLowerCase upper) [lower] = true
  /\ TS.intentMatch (toLowerCase lower) [upper] = Return true.
Proof. repeat split; vm_compute; reflexivity. Qed.
